(** * Orquestador: the aggregation and validation logic of [server.js]

    A shallow embedding of the two request handlers of the orchestrator
    ([GET /disponibilidad] and [GET /recetas/:id_receta/validacion]) and of
    [mapUpstreamError], followed by the properties stated about them.

    JavaScript numbers are IEEE 754 binary64 values, so they are modelled by
    Rocq's primitive floats; payloads decoded from JSON are modelled by an
    untyped value type, because the handlers read them by duck typing. *)

From Stdlib Require Import Floats Ascii String List Bool ZArith Lia.
Import ListNotations.
Local Open Scope string_scope.
Set Warnings "-register-all".

(** ** The fragment of JavaScript used by the handlers *)

(** Values that a decoded JSON payload, a query parameter or a missing
    property can be. An object is its table of own properties. *)
Inductive JsVal : Type :=
| JUndefined
| JNull
| JBool (b : bool)
| JNum (x : float)
| JStr (s : string)
| JArr (elems : list JsVal)
| JObj (props : list (string * JsVal)).

(** What [mapUpstreamError] can observe of a thrown value [e]: [e.response]
    (with its [status] and [data]), whether [e.request] is set, and
    [String(e)]. *)
Module Axios.
Record Response := { status : float; data : JsVal }.
End Axios.

Record JsError := {
  response : option Axios.Response;
  request : bool;
  text : string
}.

(** A [TypeError] raised by the language itself carries neither a response
    nor a request. The message is the engine's; only its presence matters. *)
Definition TypeError (msg : string) : JsError :=
  {| response := None; request := false; text := "TypeError: " ++ msg |}.

(** Evaluation either yields a value or throws. *)
Inductive Completion (A : Type) : Type :=
| Normal (a : A)
| Throw (e : JsError).
Arguments Normal {A} a.
Arguments Throw {A} e.

Definition bind {A B} (c : Completion A) (k : A -> Completion B) : Completion B :=
  match c with
  | Normal a => k a
  | Throw e => Throw e
  end.

Notation "x <- c ;; k" := (bind c (fun x => k))
  (at level 61, c at next level, right associativity).

(** The two conversions between strings and numbers are the engine's
    ([StringToNumber] and [Number::toString] of ECMA-262); the handlers
    only reach them through [Number(...)], so they are kept abstract. *)
Record Engine := {
  StringToNumber : string -> float;
  NumberToString : float -> string
}.

Definition nullish (v : JsVal) : bool :=
  match v with
  | JUndefined | JNull => true
  | _ => false
  end.

(** [ToBoolean]: the test behind [!x], [x || y] and [if (x)]. *)
Definition truthy (v : JsVal) : bool :=
  match v with
  | JUndefined | JNull => false
  | JBool b => b
  | JNum x => negb (PrimFloat.eqb x 0 || PrimFloat.is_nan x)
  | JStr s => negb (String.eqb s "")
  | JArr _ | JObj _ => true
  end.

(** [a ?? b] *)
Definition coalesce (a b : JsVal) : JsVal := if nullish a then b else a.

Fixpoint lookup (k : string) (props : list (string * JsVal)) : option JsVal :=
  match props with
  | [] => None
  | (k', v) :: rest => if String.eqb k k' then Some v else lookup k rest
  end.

(** [v.k] for a property name [k] that is neither an index nor a built-in
    member (every name the handlers read is of that kind): reading from
    [undefined] or [null] throws, an object answers from its own
    properties, and any other value answers [undefined]. *)
Definition get (v : JsVal) (k : string) : Completion JsVal :=
  match v with
  | JUndefined | JNull => Throw (TypeError ("Cannot read properties (reading '" ++ k ++ "')"))
  | JObj props =>
      match lookup k props with
      | Some x => Normal x
      | None => Normal JUndefined
      end
  | _ => Normal JUndefined
  end.

(** [v?.k] *)
Definition get_opt (v : JsVal) (k : string) : JsVal :=
  match get v k with
  | Normal x => x
  | Throw _ => JUndefined
  end.

Section Coercions.
Variable engine : Engine.

(** [ToString]. An object decoded from JSON has no callable own
    property, so an own [toString] makes the conversion throw and
    otherwise the inherited one answers ["[object Object]"]; an array
    answers [join(",")], where [undefined] and [null] elements print as
    the empty string. *)
Fixpoint ToString (v : JsVal) : Completion string :=
  match v with
  | JUndefined => Normal "undefined"
  | JNull => Normal "null"
  | JBool true => Normal "true"
  | JBool false => Normal "false"
  | JNum x => Normal (NumberToString engine x)
  | JStr s => Normal s
  | JArr elems =>
      (fix join (l : list JsVal) : Completion string :=
         match l with
         | [] => Normal ""
         | x :: rest =>
             sx <- (if nullish x then Normal "" else ToString x) ;;
             match rest with
             | [] => Normal sx
             | _ => srest <- join rest ;; Normal (sx ++ "," ++ srest)
             end
         end) elems
  | JObj props =>
      match lookup "toString" props with
      | Some _ => Throw (TypeError "Cannot convert object to primitive value")
      | None => Normal "[object Object]"
      end
  end.

(** [Number(v)], that is [ToNumber]. *)
Definition Number (v : JsVal) : Completion float :=
  match v with
  | JUndefined => Normal nan
  | JNull => Normal 0%float
  | JBool true => Normal 1%float
  | JBool false => Normal 0%float
  | JNum x => Normal x
  | JStr s => Normal (StringToNumber engine s)
  | JArr _ | JObj _ => s <- ToString v ;; Normal (StringToNumber engine s)
  end.

End Coercions.

(** [(v || []).m(...)] for an array method [m]: a falsy [v] is replaced
    by the empty array, an array answers with its elements, and any other
    truthy value has no such method. *)
Definition array_or_empty (v : JsVal) (m : string) : Completion (list JsVal) :=
  if truthy v then
    match v with
    | JArr elems => Normal elems
    | _ => Throw (TypeError (m ++ " is not a function"))
    end
  else Normal [].

(** [Array.prototype.reduce] with an initial value. *)
Fixpoint reduce {A} (f : A -> JsVal -> Completion A) (l : list JsVal) (acc : A)
  : Completion A :=
  match l with
  | [] => Normal acc
  | s :: rest => acc' <- f acc s ;; reduce f rest acc'
  end.

(** [Array.prototype.find]: the first element the predicate accepts, in
    list order, [undefined] when it accepts none. *)
Fixpoint find (p : JsVal -> Completion bool) (l : list JsVal) : Completion JsVal :=
  match l with
  | [] => Normal JUndefined
  | s :: rest => b <- p s ;; if b then Normal s else find p rest
  end.

(** [x >= y] and [x > y] on numbers. *)
Definition ge (x y : float) : bool := PrimFloat.leb y x.
Definition gt (x y : float) : bool := PrimFloat.ltb y x.

(** ** Upstream services *)

(** The three kinds of call the handlers issue through [http.get]. The URL
    is represented by the service it addresses and the identifier placed
    in its path ([encodeURIComponent] is injective on it); the stock call
    carries its [params]. *)
Inductive Request : Type :=
| GetProducto (id_producto : string)
| GetStock (id_producto distrito : JsVal)
| GetReceta (id_receta : string).

(** A settled promise: its outcome, and the position [at_tick] of its
    settlement in the order in which the event loop runs them (replies of
    distinct calls arrive at distinct ticks). *)
Record Settled (A : Type) := {
  at_tick : nat;
  outcome : Completion A
}.
Arguments at_tick {A} s.
Arguments outcome {A} s.

(** The world outside: what the [n]-th call issued by a handler comes to,
    [http.get(...).then((r) => r.data)]. *)
Definition Upstream := nat -> Request -> Settled JsVal.

(** The rejection [Promise.all] reports: that of the promise rejected
    first; promises rejected in the same tick are seen in list order. *)
Fixpoint first_rejection {A} (ps : list (Settled A)) : option (nat * JsError) :=
  match ps with
  | [] => None
  | p :: rest =>
      match outcome p, first_rejection rest with
      | Throw e, Some (t', e') =>
          if (at_tick p <=? t')%nat then Some (at_tick p, e) else Some (t', e')
      | Throw e, None => Some (at_tick p, e)
      | Normal _, r => r
      end
  end.

Fixpoint fulfilled {A} (ps : list (Settled A)) : list A :=
  match ps with
  | [] => []
  | p :: rest =>
      match outcome p with
      | Normal a => a :: fulfilled rest
      | Throw _ => fulfilled rest
      end
  end.

(** [await Promise.all(ps)] *)
Definition promise_all {A} (ps : list (Settled A)) : Completion (list A) :=
  match first_rejection ps with
  | Some (_, e) => Throw e
  | None => Normal (fulfilled ps)
  end.

(** ** The handlers *)

(** What a handler sends: [res.status(status).json(body)]. *)
Record HttpReply := { status : float; body : JsVal }.

(** A handled request: the upstream calls issued, in order, and the reply. *)
Record Handled := { issued : list Request; reply : HttpReply }.

Definition mapUpstreamError (e : JsError) : HttpReply :=
  match response e with
  | Some r =>
      {| status := Axios.status r;
         body := JObj [("error", JStr "Upstream error");
                       ("upstream_status", JNum (Axios.status r));
                       ("upstream_body", Axios.data r)] |}
  | None =>
      if request e then
        {| status := 504;
           body := JObj [("error", JStr "Upstream timeout/unreachable")] |}
      else
        {| status := 500;
           body := JObj [("error", JStr "Orchestrator error");
                         ("detail", JStr (text e))] |}
  end.

(** One entry of [items]. *)
Record Item := {
  id_producto : JsVal;
  solicitado : float;
  disponible : float;
  id_sucursal_sugerida : JsVal
}.

Definition item_json (i : Item) : JsVal :=
  JObj [("id_producto", id_producto i);
        ("solicitado", JNum (solicitado i));
        ("disponible", JNum (disponible i));
        ("id_sucursal_sugerida", id_sucursal_sugerida i)].

Definition cantidadField (s : JsVal) : Completion JsVal :=
  a <- get s "cantidad_actual" ;;
  if nullish a then
    b <- get s "stock_actual" ;;
    if nullish b then
      c <- get s "cantidad" ;;
      Normal (coalesce c (JNum 0))
    else Normal b
  else Normal a.

(** [.catch] of the catalog call: a 404 becomes [null]. *)
Definition catch_404 (p : Settled JsVal) : Settled JsVal :=
  match outcome p with
  | Throw e =>
      match response e with
      | Some r =>
          if PrimFloat.eqb (Axios.status r) 404
          then {| at_tick := at_tick p; outcome := Normal JNull |}
          else p
      | None => p
      end
  | Normal _ => p
  end.

Definition ok (items : list Item) : bool :=
  forallb (fun i => ge (disponible i) (solicitado i)) items.

Definition parcial (items : list Item) : bool :=
  negb (ok items) && existsb (fun i => gt (disponible i) 0) items.

Definition estado_sugerido (items : list Item) : string :=
  if ok items then "VALIDADA" else if parcial items then "PARCIAL" else "RECHAZADA".

Section Handlers.
Variable engine : Engine.
Variable http : Upstream.

(** [Number(cantidadField(s))], the coerced quantity of a stock entry. *)
Definition cantidad_of (s : JsVal) : Completion float :=
  c <- cantidadField s ;; Number engine c.

Definition total (stockList : JsVal) : Completion float :=
  l <- array_or_empty stockList "reduce" ;;
  reduce (fun acc s => q <- cantidad_of s ;; Normal (acc + q)%float) l 0%float.

Definition sugerida (it stockList : JsVal) : Completion JsVal :=
  l <- array_or_empty stockList "find" ;;
  s <- find (fun s =>
               q <- cantidad_of s ;;
               c <- get it "cantidad" ;;
               n <- Number engine c ;;
               Normal (ge q n)) l ;;
  Normal (coalesce (get_opt s "id_sucursal") JNull).

(** The body of the per-ingredient function once the stock listing of
    the ingredient has arrived. *)
Definition item_of (it stockList : JsVal) : Completion Item :=
  t <- total stockList ;;
  sug <- sugerida it stockList ;;
  idp <- get it "id_producto" ;;
  c <- get it "cantidad" ;;
  n <- Number engine c ;;
  Normal {| id_producto := idp; solicitado := n; disponible := t;
            id_sucursal_sugerida := sug |}.

(** [GET /disponibilidad], given [req.query.id_producto] and
    [req.query.distrito]. *)
Definition getAvailability (id_producto distrito : JsVal) : Handled :=
  if negb (truthy id_producto) then
    {| issued := [];
       reply := {| status := 400;
                   body := JObj [("error", JStr "id_producto requerido")] |} |}
  else
    match ToString engine id_producto with
    | Throw e => {| issued := []; reply := mapUpstreamError e |}
    | Normal path_id =>
        let q1 := GetProducto path_id in
        let q2 := GetStock id_producto distrito in
        {| issued := [q1; q2];
           reply :=
             match promise_all [catch_404 (http 0%nat q1); http 1%nat q2] with
             | Throw e => mapUpstreamError e
             | Normal l =>
                 {| status := 200;
                    body := JObj [("producto", nth 0 l JUndefined);
                                  ("sucursales", nth 1 l JUndefined)] |}
             end |}
    end.

(** [(receta.detalle || []).map(async (it) => ...)]: the calls issued,
    numbered from [n], and the promise of each ingredient. Reading
    [it.id_producto] happens before the call is issued, so an ingredient
    that is [null] rejects at once (tick 0) without a call; otherwise
    the promise settles when the stock listing arrives. *)
Fixpoint launch (detalle : list JsVal) (n : nat) : list Request * list (Settled Item) :=
  match detalle with
  | [] => ([], [])
  | it :: rest =>
      match get it "id_producto" with
      | Throw e =>
          let '(calls, tasks) := launch rest n in
          (calls, {| at_tick := 0; outcome := Throw e |} :: tasks)
      | Normal idp =>
          let q := GetStock idp JUndefined in
          let r := http n q in
          let '(calls, tasks) := launch rest (S n) in
          (q :: calls,
           {| at_tick := S (at_tick r);
              outcome := stockList <- outcome r ;; item_of it stockList |} :: tasks)
      end
  end.

(** [GET /recetas/:id_receta/validacion], given [req.params.id_receta]. *)
Definition validateRecipe (id : string) : Handled :=
  let q0 := GetReceta id in
  match outcome (http 0%nat q0) with
  | Throw e => {| issued := [q0]; reply := mapUpstreamError e |}
  | Normal receta =>
      match (d <- get receta "detalle" ;; array_or_empty d "map") with
      | Throw e => {| issued := [q0]; reply := mapUpstreamError e |}
      | Normal detalle =>
          let '(calls, tasks) := launch detalle 1 in
          {| issued := q0 :: calls;
             reply :=
               match promise_all tasks with
               | Throw e => mapUpstreamError e
               | Normal items =>
                   {| status := 200;
                      body := JObj [("id_receta", get_opt receta "id_receta");
                                    ("estado_sugerido", JStr (estado_sugerido items));
                                    ("items", JArr (map item_json items))] |}
               end |}
      end
  end.

End Handlers.

(** An engine to run the handlers on payloads that hold no string, array
    or object where a number is expected: on those the two conversions
    are never called. *)
Definition numeric_engine : Engine :=
  {| StringToNumber := fun _ => nan; NumberToString := fun _ => "" |}.

(** The three names under which upstream services report a quantity. *)
Definition quantity_fields : list string :=
  ["cantidad_actual"; "stock_actual"; "cantidad"].

(** An entry [s] alone covers the requested quantity [n]. *)
Definition suficiente (engine : Engine) (n : float) (s : JsVal) : Prop :=
  exists q, cantidad_of engine s = Normal q /\ ge q n = true.

(** The sum of a list of numbers, left to right from 0. *)
Definition suma (qs : list float) : float :=
  fold_left PrimFloat.add qs 0%float.

(** [x < 0] does not hold. *)
Definition no_negativo (x : float) : Prop := PrimFloat.ltb x 0 = false.


(** ** Sample payloads and worlds *)

Definition stock_entry (sucursal : string) (q : float) : JsVal :=
  JObj [("id_sucursal", JStr sucursal); ("cantidad_actual", JNum q)].

(** A stock entry that names no branch. *)
Definition stock_entry_without_branch (q : float) : JsVal :=
  JObj [("cantidad_actual", JNum q)].

Definition ingredient (id : string) (q : float) : JsVal :=
  JObj [("id_producto", JStr id); ("cantidad", JNum q)].

(** An upstream answer with a non-2xx status, as axios raises it. *)
Definition http_error (st : float) (dat : JsVal) : JsError :=
  {| response := Some {| Axios.status := st; Axios.data := dat |};
     request := true;
     text := "AxiosError: Request failed" |}.

(** A world in which each service answers every call the same way. *)
Definition world (catalogo inventario recetas : Settled JsVal) : Upstream :=
  fun _ q =>
    match q with
    | GetProducto _ => catalogo
    | GetStock _ _ => inventario
    | GetReceta _ => recetas
    end.

Definition answers (t : nat) (v : JsVal) : Settled JsVal :=
  {| at_tick := t; outcome := Normal v |}.

Definition fails (t : nat) (e : JsError) : Settled JsVal :=
  {| at_tick := t; outcome := Throw e |}.

(** The catalog fails first with 500, the inventory later with 503. *)
Definition world_both_fail : Upstream :=
  world (fails 1 (http_error 500 (JStr "catalog down")))
        (fails 2 (http_error 503 (JStr "inventory down")))
        (answers 1 JNull).

(** The catalog does not know the product; the inventory lists one branch. *)
Definition world_unknown_product : Upstream :=
  world (fails 1 (http_error 404 (JStr "not found")))
        (answers 2 (JArr [stock_entry "S1" 2]))
        (answers 1 JNull).

(** The catalog answers; the inventory fails with 503. *)
Definition world_inventory_down : Upstream :=
  world (answers 1 (JObj [("id_producto", JStr "P1")]))
        (fails 2 (http_error 503 (JStr "inventory down")))
        (answers 1 JNull).

(** Recipes without ingredients: no [detalle] at all, and an empty one. *)
Definition world_recipe_without_detail : Upstream :=
  world (answers 1 JNull) (answers 1 (JArr []))
        (answers 1 (JObj [("id_receta", JStr "R1")])).

Definition world_recipe_empty_detail : Upstream :=
  world (answers 1 JNull) (answers 1 (JArr []))
        (answers 1 (JObj [("id_receta", JStr "R1"); ("detalle", JArr [])])).

(** ** Vocabulary of the statements *)

(** An item is feasible: [disponible >= solicitado]. *)
Definition factible (i : Item) : Prop := ge (disponible i) (solicitado i) = true.

(** An item has some stock: [disponible > 0]. *)
Definition con_stock (i : Item) : Prop := gt (disponible i) 0 = true.

(** The body of a successful validation. *)
Definition validation_body (id_receta : JsVal) (items : list Item) : JsVal :=
  JObj [("id_receta", id_receta);
        ("estado_sugerido", JStr (estado_sugerido items));
        ("items", JArr (map item_json items))].

(** The entries [(stockList || [])] ranges over. *)
Definition stock_entries (stockList : JsVal) : list JsVal :=
  match stockList with
  | JArr elems => elems
  | _ => []
  end.

(** The coerced quantities [qs] of the entries [l], entry by entry. *)
Definition cantidades (engine : Engine) (l : list JsVal) (qs : list float) : Prop :=
  Forall2 (fun s q => cantidad_of engine s = Normal q) l qs.

(** ** Start-up configuration *)

(** [process.env]: a variable is unset or holds a string. *)
Definition ProcessEnv := string -> option string.

(** [new Error(msg)], as [mapUpstreamError] sees it. *)
Definition Error (msg : string) : JsError :=
  {| response := None; request := false; text := "Error: " ++ msg |}.

(** [process.env.X || d]: an unset or empty variable gives the default. *)
Definition or_default (v : option string) (d : string) : string :=
  match v with
  | Some s => if String.eqb s "" then d else s
  | None => d
  end.

Definition ENV (env : ProcessEnv) : string :=
  or_default (env "NODE_ENV") "development".

Definition must (env : ProcessEnv) (name : string) : Completion string :=
  match env name with
  | Some v =>
      if String.eqb v ""
      then Throw (Error ("[orq] Falta la variable de entorno " ++ name))
      else Normal v
  | None => Throw (Error ("[orq] Falta la variable de entorno " ++ name))
  end.

(** [ENV === "production" ? must(name) : process.env[name] || fallback] *)
Definition service_url (env : ProcessEnv) (name fallback : string) : Completion string :=
  if String.eqb (ENV env) "production" then must env name
  else Normal (or_default (env name) fallback).

(** The three base URLs, evaluated in the order of the module. *)
Record ServiceUrls := {
  INVENTARIO_URL : string;
  RECETAS_URL : string;
  CATALOGO_URL : string
}.

Definition service_urls (env : ProcessEnv) : Completion ServiceUrls :=
  inventario <- service_url env "INVENTARIO_URL" "http://localhost:8082" ;;
  recetas <- service_url env "RECETAS_URL" "http://localhost:8083" ;;
  catalogo <- service_url env "CATALOGO_URL" "http://localhost:8084" ;;
  Normal {| INVENTARIO_URL := inventario; RECETAS_URL := recetas;
            CATALOGO_URL := catalogo |}.

(** [s.split(sep)] for a separator of one character: the pieces between
    its occurrences, the empty ones included. *)
Fixpoint split (sep : Ascii.ascii) (s : string) : list string :=
  match s with
  | EmptyString => [EmptyString]
  | String c rest =>
      if Ascii.eqb c sep then EmptyString :: split sep rest
      else
        match split sep rest with
        | piece :: pieces => String c piece :: pieces
        | [] => [String c EmptyString]
        end
  end.

(** The [origin] option handed to [cors]: [true], or a list of origins. *)
Inductive CorsOrigin : Type :=
| AnyOrigin
| Origins (allowed : list string).

Section Cors.
(** [String.prototype.trim], the engine's. *)
Variable trim : string -> string.

Definition CORS_ORIGINS (env : ProcessEnv) : list string :=
  filter (fun s => negb (String.eqb s ""))
    (map trim (split ","%char (or_default (env "CORS_ORIGINS") "*"))).

(** [CORS_ORIGINS.includes("*") ? true : CORS_ORIGINS] *)
Definition cors_origin (env : ProcessEnv) : CorsOrigin :=
  if existsb (String.eqb "*") (CORS_ORIGINS env) then AnyOrigin
  else Origins (CORS_ORIGINS env).

End Cors.

(** ** More sample payloads and worlds *)

(** The recipe R1 asks for 5 of A and 3 of B; A is stocked in two
    branches, B in one. *)
Definition world_two_ingredients : Upstream :=
  fun _ q =>
    match q with
    | GetReceta _ =>
        answers 1 (JObj [("id_receta", JStr "R1");
                         ("detalle", JArr [ingredient "A" 5; ingredient "B" 3])])
    | GetStock (JStr "A") _ =>
        answers 2 (JArr [stock_entry "S1" 2; stock_entry "S2" 10])
    | GetStock _ _ => answers 3 (JArr [stock_entry "S1" 1])
    | GetProducto _ => answers 1 (JObj [("id_producto", JStr "A")])
    end.

(** The recipe lists a [null] among its ingredients; every stock call
    fails. *)
Definition world_null_ingredient : Upstream :=
  world (answers 1 JNull)
        (fails 1 (http_error 503 (JStr "inventory down")))
        (answers 1 (JObj [("id_receta", JStr "R1");
                          ("detalle", JArr [ingredient "A" 5; JNull])])).

(** The recipe's [detalle] is an object, not an array. *)
Definition world_detalle_not_array : Upstream :=
  world (answers 1 JNull) (answers 1 (JArr []))
        (answers 1 (JObj [("id_receta", JStr "R1");
                          ("detalle", JObj [("id_producto", JStr "A")])])).

(** The recipe service does not know the recipe. *)
Definition world_unknown_recipe : Upstream :=
  world (answers 1 JNull) (answers 1 (JArr []))
        (fails 1 (http_error 404 (JStr "receta no encontrada"))).

(** Catalog and inventory both answer. *)
Definition world_available : Upstream :=
  world (answers 2 (JObj [("id_producto", JStr "P1")]))
        (answers 1 (JArr [stock_entry "S1" 2]))
        (answers 1 JNull).

(** The catalog fails with 500; the inventory answers. *)
Definition world_catalog_down : Upstream :=
  world (fails 2 (http_error 500 (JStr "catalog down")))
        (answers 1 (JArr [stock_entry "S1" 2]))
        (answers 1 JNull).

(** Environments of the process. *)
Definition env_of (vars : list (string * string)) : ProcessEnv :=
  fun name =>
    match List.find (fun kv => String.eqb name (fst kv)) vars with
    | Some kv => Some (snd kv)
    | None => None
    end.

Definition env_production : ProcessEnv :=
  env_of [("NODE_ENV", "production");
          ("INVENTARIO_URL", "http://inventario:8082");
          ("RECETAS_URL", "http://recetas:8083");
          ("CATALOGO_URL", "http://catalogo:8084")].

Definition env_development : ProcessEnv :=
  env_of [("RECETAS_URL", "http://recetas:8083")].

(** A value that is neither an array nor an object. *)
Definition primitive (v : JsVal) : bool :=
  match v with
  | JArr _ | JObj _ => false
  | _ => true
  end.

(** A stock entry the handlers can read: it is not [null], and what it
    holds under the three quantity names is primitive. *)
Definition readable_entry (s : JsVal) : Prop :=
  nullish s = false /\
  forall k v, In k quantity_fields -> get s k = Normal v -> primitive v = true.

(** [(stockList || [])] is the array of the entries [l]. *)
Definition listing_of (stockList : JsVal) (l : list JsVal) : Prop :=
  stockList = JArr l \/ (truthy stockList = false /\ l = []).

(** The ingredients whose [id_producto] can be read, that is, those that
    are neither [null] nor [undefined]: the ones a stock call is issued
    for. *)
Definition readable_ingredients (detalle : list JsVal) : list JsVal :=
  filter (fun it => negb (nullish it)) detalle.

(** The character [c] occurs in [s]. *)
Fixpoint occurs (c : Ascii.ascii) (s : string) : bool :=
  match s with
  | EmptyString => false
  | String c' rest => Ascii.eqb c' c || occurs c rest
  end.

(** A [trim] that strips spaces, to run the configuration on origins
    written with spaces only. *)
Fixpoint trim_left (s : string) : string :=
  match s with
  | String c rest => if Ascii.eqb c " "%char then trim_left rest else s
  | EmptyString => EmptyString
  end.

Fixpoint trim_right (s : string) : string :=
  match s with
  | EmptyString => EmptyString
  | String c rest =>
      match trim_right rest with
      | EmptyString => if Ascii.eqb c " "%char then EmptyString else String c EmptyString
      | rest' => String c rest'
      end
  end.

Definition trim_spaces (s : string) : string := trim_right (trim_left s).

Definition env_two_origins : ProcessEnv :=
  env_of [("CORS_ORIGINS", "http://a, http://b,")].

(** The recipe lists the product A twice; the first stock call is
    answered, the second one fails. *)
Definition world_second_call_fails : Upstream :=
  fun n q =>
    match q with
    | GetReceta _ =>
        answers 1 (JObj [("id_receta", JStr "R1");
                         ("detalle", JArr [ingredient "A" 5; ingredient "A" 1])])
    | GetStock _ _ =>
        if (n =? 2)%nat
        then fails 3 (http_error 503 (JStr "inventory down"))
        else answers 2 (JArr [stock_entry "S1" 10])
    | GetProducto _ => answers 1 JNull
    end.
(** ** Error mapping *)

(** C6: [mapUpstreamError] is a function of the failure alone: a failure
    with a response maps to the upstream status with the body
    [{error, upstream_status, upstream_body}]; a failure without a
    response but with a request maps to 504; any other failure maps to 500
    with the stringified failure as [detail]. *)
Theorem mapUpstreamError_spec :
  (forall st dat rq txt,
      mapUpstreamError
        {| response := Some {| Axios.status := st; Axios.data := dat |};
           request := rq; text := txt |}
      = {| status := st;
           body := JObj [("error", JStr "Upstream error");
                         ("upstream_status", JNum st);
                         ("upstream_body", dat)] |}) /\
  (forall txt,
      mapUpstreamError {| response := None; request := true; text := txt |}
      = {| status := 504;
           body := JObj [("error", JStr "Upstream timeout/unreachable")] |}) /\
  (forall txt,
      mapUpstreamError {| response := None; request := false; text := txt |}
      = {| status := 500;
           body := JObj [("error", JStr "Orchestrator error");
                         ("detail", JStr txt)] |}).
Proof.
  repeat split; intros; reflexivity.
Qed.

(** ** Availability *)

(** C8: with an empty (or missing) [id_producto] the handler answers 400
    and issues no upstream call. *)
Theorem getAvailability_empty_id (engine : Engine) (http : Upstream) (distrito : JsVal) :
  getAvailability engine http (JStr "") distrito
  = {| issued := [];
       reply := {| status := 400;
                   body := JObj [("error", JStr "id_producto requerido")] |} |}
  /\
  getAvailability engine http JUndefined distrito
  = {| issued := [];
       reply := {| status := 400;
                   body := JObj [("error", JStr "id_producto requerido")] |} |}.
Proof.
  split; reflexivity.
Qed.

Lemma promise_all_pair_ok {A} (t1 t2 : nat) (a b : A) :
  promise_all [ {| at_tick := t1; outcome := Normal a |};
                {| at_tick := t2; outcome := Normal b |} ] = Normal [a; b].
Proof. reflexivity. Qed.

Lemma catch_404_not_found (p : Settled JsVal) (e : JsError) (r : Axios.Response) :
  outcome p = Throw e -> response e = Some r -> Axios.status r = 404%float ->
  catch_404 p = {| at_tick := at_tick p; outcome := Normal JNull |}.
Proof.
  intros Hp He Hr. unfold catch_404. rewrite Hp, He, Hr. reflexivity.
Qed.

Lemma catch_404_fulfilled (p : Settled JsVal) (v : JsVal) :
  outcome p = Normal v -> catch_404 p = p.
Proof.
  intros Hp. unfold catch_404. rewrite Hp. reflexivity.
Qed.

Lemma catch_404_tick (p : Settled JsVal) : at_tick (catch_404 p) = at_tick p.
Proof.
  unfold catch_404. destruct (outcome p); [reflexivity|].
  destruct (response e); [|reflexivity].
  destruct (PrimFloat.eqb _ _); reflexivity.
Qed.

(** C4: when the catalog call fails with status 404 and the stock call
    succeeds, the handler answers 200 with [producto = null] and
    [sucursales] the stock payload as received. *)
Theorem getAvailability_product_not_found
  (engine : Engine) (http : Upstream) (id_producto distrito : JsVal)
  (path_id : string) (e : JsError) (r : Axios.Response) (payload : JsVal) :
  truthy id_producto = true ->
  ToString engine id_producto = Normal path_id ->
  outcome (http 0%nat (GetProducto path_id)) = Throw e ->
  response e = Some r ->
  Axios.status r = 404%float ->
  outcome (http 1%nat (GetStock id_producto distrito)) = Normal payload ->
  getAvailability engine http id_producto distrito
  = {| issued := [GetProducto path_id; GetStock id_producto distrito];
       reply := {| status := 200;
                   body := JObj [("producto", JNull); ("sucursales", payload)] |} |}.
Proof.
  intros Hid Hpath Hcat He Hr Hinv.
  unfold getAvailability. rewrite Hid, Hpath. cbn [negb].
  rewrite (catch_404_not_found _ e r Hcat He Hr).
  unfold promise_all. cbn [first_rejection outcome fulfilled].
  rewrite Hinv. reflexivity.
Qed.

Lemma getAvailability_product_not_found_witness :
  getAvailability numeric_engine world_unknown_product (JStr "P1") JUndefined
  = {| issued := [GetProducto "P1"; GetStock (JStr "P1") JUndefined];
       reply := {| status := 200;
                   body := JObj [("producto", JNull);
                                 ("sucursales", JArr [stock_entry "S1" 2])] |} |}.
Proof.
  apply (getAvailability_product_not_found numeric_engine world_unknown_product
           (JStr "P1") JUndefined "P1"
           (http_error 404 (JStr "not found"))
           {| Axios.status := 404; Axios.data := JStr "not found" |});
    reflexivity.
Defined.

Lemma mapUpstreamError_response (e : JsError) (r : Axios.Response) :
  response e = Some r ->
  mapUpstreamError e
  = {| status := Axios.status r;
       body := JObj [("error", JStr "Upstream error");
                     ("upstream_status", JNum (Axios.status r));
                     ("upstream_body", Axios.data r)] |}.
Proof.
  intros He. unfold mapUpstreamError. rewrite He. reflexivity.
Qed.

(** When the second promise rejects and the first one either fulfils or
    rejects strictly later, [Promise.all] reports the second rejection. *)
Lemma promise_all_second_rejects {A} (p1 p2 : Settled A) (e : JsError) :
  outcome p2 = Throw e ->
  (forall e1, outcome p1 = Throw e1 -> (at_tick p2 < at_tick p1)%nat) ->
  promise_all [p1; p2] = Throw e.
Proof.
  intros H2 H1. unfold promise_all. cbn [first_rejection]. rewrite H2.
  destruct (outcome p1) as [a|e1] eqn:Ho; [reflexivity|].
  specialize (H1 e1 eq_refl).
  apply Nat.leb_gt in H1. rewrite H1. reflexivity.
Qed.

(** C7, as the code has it: when the stock call fails with a non-404
    upstream status, and the catalog call succeeds, or fails with 404, or
    fails later than the stock call, the handler answers with the status
    and body of the stock failure. *)
Theorem getAvailability_inventory_error
  (engine : Engine) (http : Upstream) (id_producto distrito : JsVal)
  (path_id : string) (e : JsError) (r : Axios.Response) :
  truthy id_producto = true ->
  ToString engine id_producto = Normal path_id ->
  outcome (http 1%nat (GetStock id_producto distrito)) = Throw e ->
  response e = Some r ->
  Axios.status r <> 404%float ->
  ((exists producto, outcome (http 0%nat (GetProducto path_id)) = Normal producto) \/
   (exists e1 r1, outcome (http 0%nat (GetProducto path_id)) = Throw e1 /\
                  response e1 = Some r1 /\ Axios.status r1 = 404%float) \/
   (at_tick (http 1%nat (GetStock id_producto distrito))
    < at_tick (http 0%nat (GetProducto path_id)))%nat) ->
  getAvailability engine http id_producto distrito
  = {| issued := [GetProducto path_id; GetStock id_producto distrito];
       reply := {| status := Axios.status r;
                   body := JObj [("error", JStr "Upstream error");
                                 ("upstream_status", JNum (Axios.status r));
                                 ("upstream_body", Axios.data r)] |} |}.
Proof.
  intros Hid Hpath Hinv He _ Hcat.
  unfold getAvailability. rewrite Hid, Hpath. cbn [negb].
  rewrite (promise_all_second_rejects _ _ e Hinv).
  - rewrite (mapUpstreamError_response e r He). reflexivity.
  - intros e1 Hthrow. rewrite catch_404_tick.
    destruct Hcat as [[producto Hok] | [[e1' [r1 [Hko [Hr1 H404]]]] | Hlater]].
    + rewrite (catch_404_fulfilled _ producto Hok), Hok in Hthrow. discriminate.
    + rewrite (catch_404_not_found _ e1' r1 Hko Hr1 H404) in Hthrow. discriminate.
    + exact Hlater.
Qed.

Lemma float_503_is_not_404 : 503%float <> 404%float.
Proof.
  intros H. apply (f_equal (fun x => PrimFloat.eqb x 404)) in H.
  vm_compute in H. discriminate.
Qed.

Lemma getAvailability_inventory_error_witness :
  getAvailability numeric_engine world_inventory_down (JStr "P1") JUndefined
  = {| issued := [GetProducto "P1"; GetStock (JStr "P1") JUndefined];
       reply := {| status := 503;
                   body := JObj [("error", JStr "Upstream error");
                                 ("upstream_status", JNum 503);
                                 ("upstream_body", JStr "inventory down")] |} |}.
Proof.
  apply (getAvailability_inventory_error numeric_engine world_inventory_down
           (JStr "P1") JUndefined "P1"
           (http_error 503 (JStr "inventory down"))
           {| Axios.status := 503; Axios.data := JStr "inventory down" |});
    try reflexivity.
  - exact float_503_is_not_404.
  - left. exists (JObj [("id_producto", JStr "P1")]). reflexivity.
Defined.

(** C7, as stated, fails: the stock call fails with 503, the catalog call
    has failed before it with 500, and the handler answers with the
    catalog failure. *)
Lemma getAvailability_inventory_error_counterexample :
  outcome (world_both_fail 1%nat (GetStock (JStr "P1") JUndefined))
  = Throw (http_error 503 (JStr "inventory down")) /\
  reply (getAvailability numeric_engine world_both_fail (JStr "P1") JUndefined)
  = {| status := 500;
       body := JObj [("error", JStr "Upstream error");
                     ("upstream_status", JNum 500);
                     ("upstream_body", JStr "catalog down")] |}.
Proof.
  split; reflexivity.
Qed.

(** ** Recipe validation: the overall status *)

Lemma ok_factible (items : list Item) : ok items = true <-> Forall factible items.
Proof.
  unfold ok, factible. rewrite forallb_forall, Forall_forall. reflexivity.
Qed.

Lemma existsb_con_stock (items : list Item) :
  existsb (fun i => gt (disponible i) 0) items = true <-> Exists con_stock items.
Proof.
  unfold con_stock. rewrite existsb_exists, Exists_exists. reflexivity.
Qed.

Lemma estado_VALIDADA (items : list Item) :
  estado_sugerido items = "VALIDADA" <-> Forall factible items.
Proof.
  rewrite <- ok_factible. unfold estado_sugerido.
  destruct (ok items); [tauto|].
  destruct (parcial items); split; discriminate.
Qed.

Lemma estado_PARCIAL (items : list Item) :
  estado_sugerido items = "PARCIAL" <->
  ~ Forall factible items /\ Exists con_stock items.
Proof.
  rewrite <- ok_factible, <- existsb_con_stock. unfold estado_sugerido, parcial.
  destruct (ok items); cbn [negb andb];
    [|destruct (existsb _ items)];
    intuition (discriminate || congruence).
Qed.

Lemma estado_RECHAZADA (items : list Item) :
  estado_sugerido items = "RECHAZADA" <->
  ~ Forall factible items /\ ~ Exists con_stock items.
Proof.
  rewrite <- ok_factible, <- existsb_con_stock. unfold estado_sugerido, parcial.
  destruct (ok items); cbn [negb andb];
    [|destruct (existsb _ items)];
    intuition (discriminate || congruence).
Qed.

(** Every reply of the validation handler is either a mapped failure or
    the validation body of some list of items. *)
Lemma validateRecipe_reply (engine : Engine) (http : Upstream) (id : string) :
  (exists e, reply (validateRecipe engine http id) = mapUpstreamError e) \/
  (exists id_receta items,
      reply (validateRecipe engine http id)
      = {| status := 200; body := validation_body id_receta items |}).
Proof.
  unfold validateRecipe.
  destruct (outcome (http 0%nat (GetReceta id))) as [receta|e]; [|left; now exists e].
  destruct (d <- get receta "detalle";; array_or_empty d "map") as [detalle|e];
    [|left; now exists e].
  destruct (launch engine http detalle 1) as [calls tasks]. cbn [reply].
  destruct (promise_all tasks) as [items|e]; [|left; now exists e].
  right. exists (get_opt receta "id_receta"), items. reflexivity.
Qed.

(** C1: in every validation result the status is VALIDADA exactly when
    every item has [disponible >= solicitado], PARCIAL exactly when that
    fails and some item has [disponible > 0], RECHAZADA otherwise; a recipe
    with an empty ingredient list is VALIDADA with no items. *)
Theorem estado_sugerido_spec (engine : Engine) (http : Upstream) (id : string) :
  ((exists e, reply (validateRecipe engine http id) = mapUpstreamError e) \/
   (exists id_receta items,
       reply (validateRecipe engine http id)
       = {| status := 200;
            body := JObj [("id_receta", id_receta);
                          ("estado_sugerido", JStr (estado_sugerido items));
                          ("items", JArr (map item_json items))] |})) /\
  (forall items,
      (estado_sugerido items = "VALIDADA" <-> Forall factible items) /\
      (estado_sugerido items = "PARCIAL" <->
       ~ Forall factible items /\ Exists con_stock items) /\
      (estado_sugerido items = "RECHAZADA" <->
       ~ Forall factible items /\ ~ Exists con_stock items)) /\
  (forall receta,
      outcome (http 0%nat (GetReceta id)) = Normal receta ->
      get receta "detalle" = Normal (JArr []) ->
      validateRecipe engine http id
      = {| issued := [GetReceta id];
           reply := {| status := 200;
                       body := JObj [("id_receta", get_opt receta "id_receta");
                                     ("estado_sugerido", JStr "VALIDADA");
                                     ("items", JArr [])] |} |}).
Proof.
  split; [exact (validateRecipe_reply engine http id)|].
  split.
  - intros items.
    exact (conj (estado_VALIDADA items)
                (conj (estado_PARCIAL items) (estado_RECHAZADA items))).
  - intros receta Hreceta Hdetalle.
    unfold validateRecipe. rewrite Hreceta, Hdetalle. reflexivity.
Qed.

Lemma estado_sugerido_spec_witness :
  validateRecipe numeric_engine world_recipe_empty_detail "R1"
  = {| issued := [GetReceta "R1"];
       reply := {| status := 200;
                   body := JObj [("id_receta", JStr "R1");
                                 ("estado_sugerido", JStr "VALIDADA");
                                 ("items", JArr [])] |} |}.
Proof.
  apply (proj2 (proj2 (estado_sugerido_spec numeric_engine
                         world_recipe_empty_detail "R1"))
           (JObj [("id_receta", JStr "R1"); ("detalle", JArr [])]));
    reflexivity.
Defined.

(** C9: when the recipe payload has no [detalle], or a null one, the
    handler does not fail: it answers VALIDADA with no items, and issues
    no stock call. *)
Theorem validateRecipe_without_detail
  (engine : Engine) (http : Upstream) (id : string) (receta d : JsVal) :
  outcome (http 0%nat (GetReceta id)) = Normal receta ->
  get receta "detalle" = Normal d ->
  nullish d = true ->
  validateRecipe engine http id
  = {| issued := [GetReceta id];
       reply := {| status := 200;
                   body := JObj [("id_receta", get_opt receta "id_receta");
                                 ("estado_sugerido", JStr "VALIDADA");
                                 ("items", JArr [])] |} |}.
Proof.
  intros Hreceta Hdetalle Hnull.
  unfold validateRecipe. rewrite Hreceta, Hdetalle.
  destruct d; try discriminate; reflexivity.
Qed.

Lemma validateRecipe_without_detail_witness :
  validateRecipe numeric_engine world_recipe_without_detail "R1"
  = {| issued := [GetReceta "R1"];
       reply := {| status := 200;
                   body := JObj [("id_receta", JStr "R1");
                                 ("estado_sugerido", JStr "VALIDADA");
                                 ("items", JArr [])] |} |}.
Proof.
  apply (validateRecipe_without_detail numeric_engine world_recipe_without_detail
           "R1" (JObj [("id_receta", JStr "R1")]) JUndefined);
    reflexivity.
Defined.

(** ** Recipe validation: quantities *)

Lemma get_field (props : list (string * JsVal)) (k : string) :
  get (JObj props) k
  = Normal (match lookup k props with Some v => v | None => JUndefined end).
Proof.
  unfold get. destruct (lookup k props); reflexivity.
Qed.

(** C3: an entry that carries a number under exactly one of the three
    quantity names, and nothing under the other two, coerces to that
    number; an entry that carries none of the three coerces to 0. *)
Theorem cantidad_of_single_field
  (engine : Engine) (props : list (string * JsVal)) (x : float) :
  (forall k,
      In k quantity_fields ->
      lookup k props = Some (JNum x) ->
      (forall k', In k' quantity_fields -> k' <> k -> lookup k' props = None) ->
      cantidad_of engine (JObj props) = Normal x) /\
  ((forall k, In k quantity_fields -> lookup k props = None) ->
   cantidad_of engine (JObj props) = Normal 0%float).
Proof.
  unfold quantity_fields, cantidad_of, cantidadField.
  rewrite !get_field. cbn [bind]. split.
  - intros k Hk Hset Hothers.
    destruct Hk as [<- | [<- | [<- | []]]].
    + rewrite Hset. reflexivity.
    + rewrite (Hothers "cantidad_actual") by (cbn; intuition discriminate).
      rewrite Hset. reflexivity.
    + rewrite (Hothers "cantidad_actual") by (cbn; intuition discriminate).
      rewrite (Hothers "stock_actual") by (cbn; intuition discriminate).
      rewrite Hset. reflexivity.
  - intros Hnone.
    rewrite (Hnone "cantidad_actual") by (cbn; tauto).
    rewrite (Hnone "stock_actual") by (cbn; tauto).
    rewrite (Hnone "cantidad") by (cbn; tauto).
    reflexivity.
Qed.

Lemma cantidad_of_single_field_witness :
  cantidad_of numeric_engine
    (JObj [("id_sucursal", JStr "S1"); ("stock_actual", JNum 7)])
  = Normal 7%float /\
  cantidad_of numeric_engine (JObj [("id_sucursal", JStr "S1")])
  = Normal 0%float.
Proof.
  split.
  - apply (proj1 (cantidad_of_single_field numeric_engine
                    [("id_sucursal", JStr "S1"); ("stock_actual", JNum 7)] 7)
             "stock_actual").
    + cbn. tauto.
    + reflexivity.
    + intros k' [<- | [<- | [<- | []]]] Hk'; try reflexivity.
      now contradiction Hk'.
  - apply (proj2 (cantidad_of_single_field numeric_engine
                    [("id_sucursal", JStr "S1")] 0)).
    intros k [<- | [<- | [<- | []]]]; reflexivity.
Defined.

(** *** Signs under binary64 addition *)

Lemma binary_round_aux_not_below_zero (prec emax m e : Z) (l : location) :
  SFltb (binary_round_aux prec emax false m e l) (S754_zero false) = false.
Proof.
  unfold binary_round_aux.
  destruct (shr_fexp prec emax m e l) as [mrs' e'].
  destruct (shr_fexp prec emax _ e' loc_Exact) as [mrs'' e''].
  destruct (shr_m mrs''); [reflexivity | | reflexivity].
  destruct (e'' <=? emax - prec)%Z; reflexivity.
Qed.

Lemma binary_round_not_below_zero (prec emax : Z) (m : positive) (e : Z) :
  SFltb (binary_round prec emax false m e) (S754_zero false) = false.
Proof.
  unfold binary_round.
  destruct (shl_align m e _) as [mz ez].
  apply binary_round_aux_not_below_zero.
Qed.

Lemma SFadd_not_below_zero (prec emax : Z) (x y : spec_float) :
  SFltb x (S754_zero false) = false ->
  SFltb y (S754_zero false) = false ->
  SFltb (SFadd prec emax x y) (S754_zero false) = false.
Proof.
  destruct x as [sx | sx | | sx mx ex], y as [sy | sy | | sy my ey];
    try destruct sx; try destruct sy;
    try discriminate; try reflexivity.
  intros _ _. cbn [SFadd cond_Zopp Z.add].
  apply binary_round_not_below_zero.
Qed.

(** The sum of two numbers that are not negative is not negative (it may
    be [NaN] or [Infinity]). *)
Lemma add_no_negativo (x y : float) :
  no_negativo x -> no_negativo y -> no_negativo (x + y)%float.
Proof.
  unfold no_negativo. rewrite !ltb_spec, add_spec.
  change (Prim2SF 0) with (S754_zero false).
  apply SFadd_not_below_zero.
Qed.

Lemma suma_from (qs : list float) (acc : float) :
  no_negativo acc -> Forall no_negativo qs ->
  no_negativo (fold_left PrimFloat.add qs acc).
Proof.
  revert acc. induction qs as [|q qs IH]; intros acc Hacc Hqs; [exact Hacc|].
  inversion Hqs as [|? ? Hq Hrest]; subst.
  cbn [fold_left]. apply IH; [apply add_no_negativo; assumption | assumption].
Qed.

(** *** The item of an ingredient *)

(** A sequence that completes normally: its first step did. *)
Tactic Notation "bind_inv" hyp(H) "as" ident(x) ident(E) :=
  match type of H with
  | bind ?c _ = Normal _ =>
      destruct c as [x|] eqn:E; cbn [bind] in H; [|discriminate H]
  end.

Lemma array_or_empty_entries (v : JsVal) (m : string) (l : list JsVal) :
  array_or_empty v m = Normal l -> l = stock_entries v.
Proof.
  unfold array_or_empty.
  destruct v; cbn [truthy stock_entries];
    try (intros H; injection H as <-; reflexivity);
    try discriminate.
  - destruct b; [discriminate | intros H; injection H as <-; reflexivity].
  - destruct (negb _); [discriminate | intros H; injection H as <-; reflexivity].
  - destruct (negb _); [discriminate | intros H; injection H as <-; reflexivity].
Qed.

Lemma reduce_is_sum (engine : Engine) (l : list JsVal) (acc t : float) :
  reduce (fun acc s => q <- cantidad_of engine s ;; Normal (acc + q)%float) l acc
  = Normal t ->
  exists qs, cantidades engine l qs /\ t = fold_left PrimFloat.add qs acc.
Proof.
  revert acc. induction l as [|s l IH]; intros acc H; cbn [reduce] in H.
  - injection H as <-. exists []. split; [constructor | reflexivity].
  - bind_inv H as acc' Hstep. bind_inv Hstep as q Hq. injection Hstep as <-.
    destruct (IH _ H) as [qs [Hqs Ht]].
    exists (q :: qs). split; [constructor; assumption | exact Ht].
Qed.

(** What a computed item is made of. *)
Lemma item_of_parts (engine : Engine) (it stockList : JsVal) (item : Item) :
  item_of engine it stockList = Normal item ->
  total engine stockList = Normal (disponible item) /\
  sugerida engine it stockList = Normal (id_sucursal_sugerida item) /\
  exists c, get it "cantidad" = Normal c /\
            Number engine c = Normal (solicitado item).
Proof.
  intros H. unfold item_of in H.
  bind_inv H as t Ht. bind_inv H as sug Hsug. bind_inv H as idp Hidp.
  bind_inv H as c Hc. bind_inv H as n Hn.
  injection H as <-. cbn [disponible id_sucursal_sugerida solicitado].
  repeat split. exists c. split; [reflexivity | exact Hn].
Qed.

Lemma total_is_sum (engine : Engine) (stockList : JsVal) (t : float) :
  total engine stockList = Normal t ->
  exists qs, cantidades engine (stock_entries stockList) qs /\ t = suma qs.
Proof.
  intros H. unfold total in H. bind_inv H as l Hl.
  apply array_or_empty_entries in Hl. subst l.
  exact (reduce_is_sum engine _ _ _ H).
Qed.

(** C5, as the code has it: [disponible] is the sum, left to right from
    0, of the coerced quantities of the entries returned for the product;
    a quantity that is missing or null under all three names counts as 0;
    and [disponible] is not negative when no coerced quantity is. *)
Theorem disponible_is_sum (engine : Engine) :
  (forall it stockList item,
      item_of engine it stockList = Normal item ->
      exists qs,
        cantidades engine (stock_entries stockList) qs /\
        disponible item = suma qs /\
        (Forall no_negativo qs -> no_negativo (disponible item))) /\
  (forall s,
      (forall k, In k quantity_fields ->
                 exists v, get s k = Normal v /\ nullish v = true) ->
      cantidad_of engine s = Normal 0%float).
Proof.
  split.
  - intros it stockList item H.
    destruct (item_of_parts engine it stockList item H) as [Ht _].
    destruct (total_is_sum engine stockList _ Ht) as [qs [Hqs Hsum]].
    exists qs. repeat split; try assumption.
    intros Hpos. rewrite Hsum. apply suma_from; [reflexivity | exact Hpos].
  - intros s Hs. unfold cantidad_of, cantidadField.
    destruct (Hs "cantidad_actual") as [v1 [-> N1]]; [cbn; tauto|].
    cbn [bind]. rewrite N1.
    destruct (Hs "stock_actual") as [v2 [-> N2]]; [cbn; tauto|].
    cbn [bind]. rewrite N2.
    destruct (Hs "cantidad") as [v3 [-> N3]]; [cbn; tauto|].
    cbn [bind]. unfold coalesce. rewrite N3. reflexivity.
Qed.

Lemma disponible_is_sum_witness :
  exists qs,
    cantidades numeric_engine [stock_entry "S1" 2; stock_entry "S2" 10] qs /\
    12%float = suma qs /\
    (Forall no_negativo qs -> no_negativo 12%float).
Proof.
  apply (proj1 (disponible_is_sum numeric_engine)
           (ingredient "A" 5)
           (JArr [stock_entry "S1" 2; stock_entry "S2" 10])
           {| id_producto := JStr "A"; solicitado := 5; disponible := 12;
              id_sucursal_sugerida := JStr "S2" |}).
  reflexivity.
Defined.

(** C5, as stated, fails: a negative quantity is not floored, and
    [disponible] is negative. *)
Lemma disponible_is_sum_counterexample :
  item_of numeric_engine (ingredient "A" 5) (JArr [stock_entry "S1" (-5)])
  = Normal {| id_producto := JStr "A"; solicitado := 5; disponible := (-5);
              id_sucursal_sugerida := JNull |} /\
  PrimFloat.ltb (-5) 0 = true.
Proof.
  split; reflexivity.
Qed.

(** ** Recipe validation: the suggested branch *)

Lemma find_first (p : JsVal -> Completion bool) (pre : list JsVal) (s : JsVal)
  (post : list JsVal) :
  (forall x, In x pre -> p x = Normal false) ->
  p s = Normal true ->
  find p (pre ++ s :: post) = Normal s.
Proof.
  intros Hpre Hs. induction pre as [|x pre IH]; cbn [app find].
  - rewrite Hs. reflexivity.
  - rewrite (Hpre x) by (left; reflexivity). cbn [bind].
    apply IH. intros y Hy. apply Hpre. right. exact Hy.
Qed.

Lemma find_none (p : JsVal -> Completion bool) (l : list JsVal) :
  (forall x, In x l -> p x = Normal false) ->
  find p l = Normal JUndefined.
Proof.
  intros Hl. induction l as [|x l IH]; cbn [find]; [reflexivity|].
  rewrite (Hl x) by (left; reflexivity). cbn [bind].
  apply IH. intros y Hy. apply Hl. right. exact Hy.
Qed.

Lemma cantidades_In (engine : Engine) (l : list JsVal) (qs : list float) (s : JsVal) :
  cantidades engine l qs -> In s l -> exists q, cantidad_of engine s = Normal q.
Proof.
  intros H. induction H as [|x q l qs Hx _ IH]; intros Hin; [destruct Hin|].
  destruct Hin as [<- | Hin]; [exists q; exact Hx | exact (IH Hin)].
Qed.

(** The test of [find] on an entry whose quantity coerces without
    throwing: so far as it is not [suficiente], the entry is skipped. *)
Lemma skipped_when_not_suficiente (engine : Engine) (it c : JsVal) (n q : float)
  (s : JsVal) :
  get it "cantidad" = Normal c -> Number engine c = Normal n ->
  cantidad_of engine s = Normal q ->
  ~ suficiente engine n s ->
  (q <- cantidad_of engine s ;;
   c <- get it "cantidad" ;;
   n <- Number engine c ;;
   Normal (ge q n)) = Normal false.
Proof.
  intros Hc Hn Hq Hno. rewrite Hq. cbn [bind]. rewrite Hc. cbn [bind].
  rewrite Hn. cbn [bind].
  destruct (ge q n) eqn:Hge; [|reflexivity].
  exfalso. apply Hno. exists q. split; assumption.
Qed.

Lemma taken_when_suficiente (engine : Engine) (it c : JsVal) (n : float) (s : JsVal) :
  get it "cantidad" = Normal c -> Number engine c = Normal n ->
  suficiente engine n s ->
  (q <- cantidad_of engine s ;;
   c <- get it "cantidad" ;;
   n <- Number engine c ;;
   Normal (ge q n)) = Normal true.
Proof.
  intros Hc Hn [q [Hq Hge]]. rewrite Hq. cbn [bind]. rewrite Hc. cbn [bind].
  rewrite Hn. cbn [bind]. rewrite Hge. reflexivity.
Qed.

(** The suggestion is read off the first sufficient entry. *)
Lemma sugerida_of_first (engine : Engine) (it stockList : JsVal) (item : Item)
  (pre : list JsVal) (s : JsVal) (post : list JsVal) :
  item_of engine it stockList = Normal item ->
  stock_entries stockList = (pre ++ s :: post)%list ->
  (forall p, In p pre -> ~ suficiente engine (solicitado item) p) ->
  suficiente engine (solicitado item) s ->
  id_sucursal_sugerida item = coalesce (get_opt s "id_sucursal") JNull.
Proof.
  intros Hitem Hentries Hpre Hs.
  destruct (item_of_parts engine it stockList item Hitem)
    as [Ht [Hsug [c [Hc Hn]]]].
  destruct (total_is_sum engine stockList _ Ht) as [qs [Hqs _]].
  unfold sugerida in Hsug. bind_inv Hsug as l Hl.
  apply array_or_empty_entries in Hl. subst l.
  rewrite Hentries in Hsug, Hqs.
  rewrite find_first in Hsug.
  - cbn [bind] in Hsug. injection Hsug as <-. reflexivity.
  - intros p Hp.
    destruct (cantidades_In engine _ _ p Hqs) as [q Hq];
      [apply in_or_app; left; exact Hp|].
    exact (skipped_when_not_suficiente engine it c _ q p Hc Hn Hq (Hpre p Hp)).
  - exact (taken_when_suficiente engine it c _ s Hc Hn Hs).
Qed.

Lemma sugerida_of_none (engine : Engine) (it stockList : JsVal) (item : Item) :
  item_of engine it stockList = Normal item ->
  (forall s, In s (stock_entries stockList) ->
             ~ suficiente engine (solicitado item) s) ->
  id_sucursal_sugerida item = JNull.
Proof.
  intros Hitem Hnone.
  destruct (item_of_parts engine it stockList item Hitem)
    as [Ht [Hsug [c [Hc Hn]]]].
  destruct (total_is_sum engine stockList _ Ht) as [qs [Hqs _]].
  unfold sugerida in Hsug. bind_inv Hsug as l Hl.
  apply array_or_empty_entries in Hl. subst l.
  rewrite find_none in Hsug.
  - cbn [bind] in Hsug. injection Hsug as <-. reflexivity.
  - intros p Hp.
    destruct (cantidades_In engine _ _ p Hqs Hp) as [q Hq].
    exact (skipped_when_not_suficiente engine it c _ q p Hc Hn Hq (Hnone p Hp)).
Qed.

Lemma listing_array (stockList : JsVal) (l : list JsVal) (m : string) :
  listing_of stockList l -> array_or_empty stockList m = Normal l.
Proof.
  unfold array_or_empty. intros [-> | [Hfalsy ->]].
  - reflexivity.
  - rewrite Hfalsy. reflexivity.
Qed.

Lemma reduce_of_cantidades (engine : Engine) (l : list JsVal) (qs : list float)
  (acc : float) :
  cantidades engine l qs ->
  reduce (fun acc s => q <- cantidad_of engine s ;; Normal (acc + q)%float) l acc
  = Normal (fold_left PrimFloat.add qs acc).
Proof.
  intros H. revert acc. induction H as [|s q l qs Hs _ IH]; intros acc.
  - reflexivity.
  - cbn [reduce fold_left]. rewrite Hs. cbn [bind]. apply IH.
Qed.

(** The item of a readable ingredient, given what [find] comes to. *)
Lemma item_of_found (engine : Engine) (it stockList idp c : JsVal) (n : float)
  (l : list JsVal) (qs : list float) (found : JsVal) :
  listing_of stockList l ->
  get it "id_producto" = Normal idp ->
  get it "cantidad" = Normal c ->
  Number engine c = Normal n ->
  cantidades engine l qs ->
  find (fun s =>
          q <- cantidad_of engine s ;;
          c <- get it "cantidad" ;;
          n <- Number engine c ;;
          Normal (ge q n)) l = Normal found ->
  item_of engine it stockList
  = Normal {| id_producto := idp; solicitado := n; disponible := suma qs;
              id_sucursal_sugerida := coalesce (get_opt found "id_sucursal") JNull |}.
Proof.
  intros Hl Hidp Hc Hn Hqs Hfind.
  unfold item_of, total, sugerida.
  rewrite (listing_array stockList l "reduce" Hl). cbn [bind].
  rewrite (reduce_of_cantidades engine l qs _ Hqs). cbn [bind].
  rewrite (listing_array stockList l "find" Hl). cbn [bind].
  rewrite Hfind. cbn [bind].
  rewrite Hidp. cbn [bind]. rewrite Hc. cbn [bind]. rewrite Hn. reflexivity.
Qed.

(** The item is produced, and its suggestion is read off the first
    sufficient entry. *)
Lemma item_of_first (engine : Engine) (it idp c : JsVal) (n : float)
  (pre : list JsVal) (s : JsVal) (post : list JsVal) (qs : list float) :
  get it "id_producto" = Normal idp ->
  get it "cantidad" = Normal c ->
  Number engine c = Normal n ->
  cantidades engine (pre ++ s :: post) qs ->
  (forall p, In p pre -> ~ suficiente engine n p) ->
  suficiente engine n s ->
  item_of engine it (JArr (pre ++ s :: post))
  = Normal {| id_producto := idp; solicitado := n; disponible := suma qs;
              id_sucursal_sugerida := coalesce (get_opt s "id_sucursal") JNull |}.
Proof.
  intros Hidp Hc Hn Hqs Hpre Hs.
  apply (item_of_found engine it _ idp c n (pre ++ s :: post) qs s);
    try assumption; [left; reflexivity|].
  apply find_first.
  - intros p Hp.
    destruct (cantidades_In engine _ _ p Hqs) as [q Hq];
      [apply in_or_app; left; exact Hp|].
    exact (skipped_when_not_suficiente engine it c n q p Hc Hn Hq (Hpre p Hp)).
  - exact (taken_when_suficiente engine it c n s Hc Hn Hs).
Qed.

(** The item is produced, without a suggestion, when no entry is
    sufficient. *)
Lemma item_of_none (engine : Engine) (it stockList idp c : JsVal) (n : float)
  (l : list JsVal) (qs : list float) :
  listing_of stockList l ->
  get it "id_producto" = Normal idp ->
  get it "cantidad" = Normal c ->
  Number engine c = Normal n ->
  cantidades engine l qs ->
  (forall s, In s l -> ~ suficiente engine n s) ->
  item_of engine it stockList
  = Normal {| id_producto := idp; solicitado := n; disponible := suma qs;
              id_sucursal_sugerida := JNull |}.
Proof.
  intros Hl Hidp Hc Hn Hqs Hnone.
  apply (item_of_found engine it stockList idp c n l qs JUndefined);
    try assumption.
  apply find_none. intros p Hp.
  destruct (cantidades_In engine _ _ p Hqs Hp) as [q Hq].
  exact (skipped_when_not_suficiente engine it c n q p Hc Hn Hq (Hnone p Hp)).
Qed.

(** C2: [id_sucursal_sugerida] is the branch id of the first entry, in
    the order received, whose own coerced quantity is at least
    [solicitado], and null when no entry is. For a readable ingredient and
    a listing whose quantities coerce, the item is produced and carries
    that suggestion; every item the code produces obeys the same rule; for
    the listing [S1: 5, S2: 100] and a request of 5 it is ["S1"]. *)
Theorem sugerida_first_match (engine : Engine) :
  (forall it idp c n pre s post qs,
      get it "id_producto" = Normal idp ->
      get it "cantidad" = Normal c ->
      Number engine c = Normal n ->
      cantidades engine (pre ++ s :: post) qs ->
      (forall p, In p pre -> ~ suficiente engine n p) ->
      suficiente engine n s ->
      item_of engine it (JArr (pre ++ s :: post))
      = Normal {| id_producto := idp; solicitado := n; disponible := suma qs;
                  id_sucursal_sugerida :=
                    coalesce (get_opt s "id_sucursal") JNull |}) /\
  (forall it stockList idp c n l qs,
      listing_of stockList l ->
      get it "id_producto" = Normal idp ->
      get it "cantidad" = Normal c ->
      Number engine c = Normal n ->
      cantidades engine l qs ->
      (forall s, In s l -> ~ suficiente engine n s) ->
      item_of engine it stockList
      = Normal {| id_producto := idp; solicitado := n; disponible := suma qs;
                  id_sucursal_sugerida := JNull |}) /\
  (forall it stockList item,
      item_of engine it stockList = Normal item ->
      (forall pre s post,
          stock_entries stockList = (pre ++ s :: post)%list ->
          (forall p, In p pre -> ~ suficiente engine (solicitado item) p) ->
          suficiente engine (solicitado item) s ->
          id_sucursal_sugerida item = coalesce (get_opt s "id_sucursal") JNull) /\
      ((forall s, In s (stock_entries stockList) ->
                  ~ suficiente engine (solicitado item) s) ->
       id_sucursal_sugerida item = JNull)) /\
  item_of engine (ingredient "A" 5)
    (JArr [stock_entry "S1" 5; stock_entry "S2" 100])
  = Normal {| id_producto := JStr "A"; solicitado := 5; disponible := 105;
              id_sucursal_sugerida := JStr "S1" |}.
Proof.
  split; [|split; [|split; [|reflexivity]]].
  - intros it idp c n pre s post qs.
    exact (item_of_first engine it idp c n pre s post qs).
  - intros it stockList idp c n l qs.
    exact (item_of_none engine it stockList idp c n l qs).
  - intros it stockList item Hitem. split.
    + intros pre s post.
      exact (sugerida_of_first engine it stockList item pre s post Hitem).
    + exact (sugerida_of_none engine it stockList item Hitem).
Qed.

Lemma sugerida_first_match_witness :
  item_of numeric_engine (ingredient "A" 5)
    (JArr [stock_entry "S1" 2; stock_entry "S2" 10])
  = Normal {| id_producto := JStr "A"; solicitado := 5; disponible := 12;
              id_sucursal_sugerida := JStr "S2" |}.
Proof.
  apply (proj1 (sugerida_first_match numeric_engine)
           (ingredient "A" 5) (JStr "A") (JNum 5) 5%float
           [stock_entry "S1" 2] (stock_entry "S2" 10) [] [2; 10]%float).
  - reflexivity.
  - reflexivity.
  - reflexivity.
  - repeat constructor.
  - intros p [<- | []] [q [Hq Hge]].
    vm_compute in Hq. injection Hq as <-. vm_compute in Hge. discriminate.
  - exists 10%float. split; reflexivity.
Defined.

(** C10: when the first sufficient entry has no [id_sucursal] (missing or
    null), the item is produced with a null suggestion, whatever the
    entries after it are. *)
Theorem sugerida_no_fall_through (engine : Engine) (it idp c : JsVal) (n : float)
  (pre : list JsVal) (s : JsVal) (post : list JsVal) (qs : list float)
  (b : JsVal) :
  get it "id_producto" = Normal idp ->
  get it "cantidad" = Normal c ->
  Number engine c = Normal n ->
  cantidades engine (pre ++ s :: post) qs ->
  (forall p, In p pre -> ~ suficiente engine n p) ->
  suficiente engine n s ->
  get s "id_sucursal" = Normal b ->
  nullish b = true ->
  item_of engine it (JArr (pre ++ s :: post))
  = Normal {| id_producto := idp; solicitado := n; disponible := suma qs;
              id_sucursal_sugerida := JNull |}.
Proof.
  intros Hidp Hc Hn Hqs Hpre Hs Hb Hnull.
  rewrite (item_of_first engine it idp c n pre s post qs Hidp Hc Hn Hqs Hpre Hs).
  unfold get_opt, coalesce. rewrite Hb, Hnull. reflexivity.
Qed.

Lemma sugerida_no_fall_through_witness :
  item_of numeric_engine (ingredient "A" 5)
    (JArr [stock_entry "S0" 1; stock_entry_without_branch 10;
           stock_entry "S2" 100])
  = Normal {| id_producto := JStr "A"; solicitado := 5; disponible := 111;
              id_sucursal_sugerida := JNull |}.
Proof.
  apply (sugerida_no_fall_through numeric_engine
           (ingredient "A" 5) (JStr "A") (JNum 5) 5%float
           [stock_entry "S0" 1] (stock_entry_without_branch 10)
           [stock_entry "S2" 100] [1; 10; 100]%float JUndefined).
  - reflexivity.
  - reflexivity.
  - reflexivity.
  - repeat constructor.
  - intros p [<- | []] [q [Hq Hge]].
    vm_compute in Hq. injection Hq as <-. vm_compute in Hge. discriminate.
  - exists 10%float. split; reflexivity.
  - reflexivity.
  - reflexivity.
Defined.

(** ** Further properties of the handlers *)

(** *** Joining promises *)

Lemma first_rejection_member {A} (ps : list (Settled A)) (t : nat) (e : JsError) :
  first_rejection ps = Some (t, e) ->
  exists p, In p ps /\ at_tick p = t /\ outcome p = Throw e.
Proof.
  revert t e. induction ps as [|p ps IH]; intros t e H; cbn [first_rejection] in H.
  - discriminate.
  - destruct (outcome p) as [a|e0] eqn:Hp.
    + destruct (IH t e H) as [p' [Hin Hp']]. exists p'. split; [right; exact Hin | exact Hp'].
    + destruct (first_rejection ps) as [[t' e']|] eqn:Hrest.
      * destruct (at_tick p <=? t')%nat.
        -- injection H as <- <-. exists p. repeat split; [left; reflexivity | exact Hp].
        -- injection H as <- <-.
           destruct (IH t' e' eq_refl) as [p' [Hin Hp']].
           exists p'. split; [right; exact Hin | exact Hp'].
      * injection H as <- <-. exists p. repeat split; [left; reflexivity | exact Hp].
Qed.

Lemma first_rejection_earliest {A} (ps : list (Settled A)) (t : nat) (e : JsError) :
  first_rejection ps = Some (t, e) ->
  forall p e', In p ps -> outcome p = Throw e' -> (t <= at_tick p)%nat.
Proof.
  revert t e. induction ps as [|p ps IH]; intros t e H q e' Hin Hq; [destruct Hin|].
  cbn [first_rejection] in H.
  destruct (outcome p) as [a|e0] eqn:Hp.
  - destruct Hin as [<- | Hin]; [congruence | exact (IH t e H q e' Hin Hq)].
  - destruct (first_rejection ps) as [[t' e1]|] eqn:Hrest.
    + destruct (at_tick p <=? t')%nat eqn:Hle.
      * injection H as <- <-. apply Nat.leb_le in Hle.
        destruct Hin as [<- | Hin]; [lia|].
        specialize (IH t' e1 eq_refl q e' Hin Hq). lia.
      * injection H as <- <-. apply Nat.leb_gt in Hle.
        destruct Hin as [<- | Hin]; [lia|].
        exact (IH t' e1 eq_refl q e' Hin Hq).
    + injection H as <- <-.
      destruct Hin as [<- | Hin]; [lia|].
      exfalso. clear IH Hp. induction ps as [|p' ps IH'].
      * destruct Hin.
      * cbn [first_rejection] in Hrest.
        destruct (outcome p') as [a|e2] eqn:Hp'.
        -- destruct Hin as [<- | Hin]; [congruence | exact (IH' Hrest Hin)].
        -- destruct (first_rejection ps) as [[t2 e3]|];
             [destruct (at_tick p' <=? t2)%nat|]; discriminate.
Qed.

Lemma first_rejection_some {A} (ps : list (Settled A)) (p : Settled A) (e : JsError) :
  In p ps -> outcome p = Throw e ->
  exists t e', first_rejection ps = Some (t, e').
Proof.
  induction ps as [|p0 ps IH]; intros Hin Hp; [destruct Hin|].
  cbn [first_rejection].
  destruct Hin as [<- | Hin].
  - rewrite Hp. destruct (first_rejection ps) as [[t' e']|];
      [destruct (at_tick p0 <=? t')%nat|]; eauto.
  - destruct (IH Hin Hp) as [t [e' ->]].
    destruct (outcome p0); [eauto|].
    destruct (at_tick p0 <=? t)%nat; eauto.
Qed.

Lemma first_rejection_none {A} (ps : list (Settled A)) :
  first_rejection ps = None ->
  Forall2 (fun p v => outcome p = Normal v) ps (fulfilled ps).
Proof.
  induction ps as [|p ps IH]; intros H; cbn [first_rejection fulfilled] in *.
  - constructor.
  - destruct (outcome p) as [a|e] eqn:Hp.
    + constructor; [exact Hp | exact (IH H)].
    + destruct (first_rejection ps) as [[t' e']|];
        [destruct (at_tick p <=? t')%nat|]; discriminate.
Qed.

Lemma promise_all_fulfilled {A} (ps : list (Settled A)) (vs : list A) :
  promise_all ps = Normal vs ->
  Forall2 (fun p v => outcome p = Normal v) ps vs.
Proof.
  unfold promise_all. intros H.
  destruct (first_rejection ps) as [[t e]|] eqn:Hfirst; [discriminate|].
  injection H as <-. exact (first_rejection_none ps Hfirst).
Qed.

(** *** The fan-out over the ingredients *)

Lemma launch_calls (engine : Engine) (http : Upstream) (detalle : list JsVal) (n : nat) :
  fst (launch engine http detalle n)
  = flat_map (fun it =>
                match get it "id_producto" with
                | Normal idp => [GetStock idp JUndefined]
                | Throw _ => []
                end) detalle.
Proof.
  revert n. induction detalle as [|it rest IH]; intros n; cbn [launch flat_map].
  - reflexivity.
  - destruct (get it "id_producto") as [idp|e].
    + specialize (IH (S n)).
      destruct (launch engine http rest (S n)) as [calls tasks].
      cbn [fst app] in *. rewrite IH. reflexivity.
    + specialize (IH n).
      destruct (launch engine http rest n) as [calls tasks].
      cbn [fst app] in *. exact IH.
Qed.

(** Each ingredient has its task: rejected at once when the ingredient
    cannot be read, otherwise settled by some stock call for its product. *)
Lemma launch_tasks (engine : Engine) (http : Upstream) (detalle : list JsVal) (n : nat) :
  Forall2
    (fun it task =>
       match get it "id_producto" with
       | Throw e => task = {| at_tick := 0; outcome := Throw e |}
       | Normal idp =>
           exists m,
             task = {| at_tick := S (at_tick (http m (GetStock idp JUndefined)));
                       outcome := stockList <- outcome (http m (GetStock idp JUndefined)) ;;
                                  item_of engine it stockList |}
       end)
    detalle (snd (launch engine http detalle n)).
Proof.
  revert n. induction detalle as [|it rest IH]; intros n; cbn [launch].
  - constructor.
  - destruct (get it "id_producto") as [idp|e] eqn:Hit.
    + specialize (IH (S n)).
      destruct (launch engine http rest (S n)) as [calls tasks].
      cbn [snd] in *. constructor; [|exact IH].
      rewrite Hit. exists n. reflexivity.
    + specialize (IH n).
      destruct (launch engine http rest n) as [calls tasks].
      cbn [snd] in *. constructor; [|exact IH].
      rewrite Hit. reflexivity.
Qed.

Lemma item_json_injective (i j : Item) : item_json i = item_json j -> i = j.
Proof.
  destruct i, j. unfold item_json. cbn. intros H.
  injection H as -> -> -> ->. reflexivity.
Qed.

Lemma map_item_json_injective (l l' : list Item) :
  map item_json l = map item_json l' -> l = l'.
Proof.
  revert l'. induction l as [|i l IH]; intros [|j l'] H; cbn [map] in H;
    try discriminate; [reflexivity|].
  pose proof (f_equal (hd (item_json i)) H) as Hij.
  pose proof (f_equal (@tl JsVal) H) as Hrest.
  cbn [hd tl] in Hij, Hrest.
  rewrite (item_json_injective i j Hij), (IH l' Hrest). reflexivity.
Qed.

Lemma mapUpstreamError_has_error (e : JsError) :
  exists msg rest, body (mapUpstreamError e) = JObj (("error", JStr msg) :: rest).
Proof.
  unfold mapUpstreamError.
  destruct (response e); [|destruct (request e)]; cbn [body]; eauto.
Qed.

(** A reply that carries a validation body was not produced by
    [mapUpstreamError]. *)
Lemma mapUpstreamError_not_validation (e : JsError) (st : float) (rid : JsVal)
  (items : list Item) :
  mapUpstreamError e <> {| status := st; body := validation_body rid items |}.
Proof.
  intros H. apply (f_equal body) in H.
  destruct (mapUpstreamError_has_error e) as [msg [rest Hb]].
  rewrite Hb in H. cbn [body] in H. unfold validation_body in H.
  discriminate.
Qed.

Lemma Forall2_compose {A B C} (R1 : A -> B -> Prop) (R2 : B -> C -> Prop)
  (R : A -> C -> Prop) (l1 : list A) (l2 : list B) (l3 : list C) :
  (forall a b c, R1 a b -> R2 b c -> R a c) ->
  Forall2 R1 l1 l2 -> Forall2 R2 l2 l3 -> Forall2 R l1 l3.
Proof.
  intros HR H12. revert l3. induction H12 as [|a b l1 l2 Hab _ IH]; intros l3 H23.
  - inversion H23. constructor.
  - inversion H23 as [|? c ? l3' Hbc Hrest]; subst.
    constructor; [exact (HR a b c Hab Hbc) | exact (IH l3' Hrest)].
Qed.

Lemma Forall2_In_l {A B} (R : A -> B -> Prop) (l : list A) (l' : list B) (x : A) :
  Forall2 R l l' -> In x l -> exists y, In y l' /\ R x y.
Proof.
  intros H. induction H as [|a b l l' Hab _ IH]; intros Hin; [destruct Hin|].
  destruct Hin as [<- | Hin].
  - exists b. split; [left; reflexivity | exact Hab].
  - destruct (IH Hin) as [y [Hy Hxy]]. exists y. split; [right; exact Hy | exact Hxy].
Qed.

Lemma Forall2_In_r {A B} (R : A -> B -> Prop) (l : list A) (l' : list B) (y : B) :
  Forall2 R l l' -> In y l' -> exists x, In x l /\ R x y.
Proof.
  intros H. induction H as [|a b l l' Hab _ IH]; intros Hin; [destruct Hin|].
  destruct Hin as [<- | Hin].
  - exists a. split; [left; reflexivity | exact Hab].
  - destruct (IH Hin) as [x [Hx Hxy]]. exists x. split; [right; exact Hx | exact Hxy].
Qed.

Lemma item_of_id (engine : Engine) (it stockList : JsVal) (item : Item) :
  item_of engine it stockList = Normal item ->
  get it "id_producto" = Normal (id_producto item).
Proof.
  intros H. unfold item_of in H.
  bind_inv H as t Ht. bind_inv H as sug Hsug. bind_inv H as idp Hidp.
  bind_inv H as c Hc. bind_inv H as n Hn.
  injection H as <-. reflexivity.
Qed.

Lemma items_of_successful_validation
  (engine : Engine) (http : Upstream) (id : string) (receta : JsVal)
  (detalle : list JsVal) (rid : JsVal) (items : list Item) :
  outcome (http 0%nat (GetReceta id)) = Normal receta ->
  get receta "detalle" = Normal (JArr detalle) ->
  reply (validateRecipe engine http id)
  = {| status := 200; body := validation_body rid items |} ->
  Forall2
    (fun it item =>
       get it "id_producto" = Normal (id_producto item) /\
       exists m stockList,
         outcome (http m (GetStock (id_producto item) JUndefined)) = Normal stockList /\
         item_of engine it stockList = Normal item)
    detalle items.
Proof.
  intros Hreceta Hdetalle Hreply.
  unfold validateRecipe in Hreply. rewrite Hreceta, Hdetalle in Hreply.
  cbn [bind array_or_empty truthy] in Hreply.
  pose proof (launch_tasks engine http detalle 1) as Htasks.
  destruct (launch engine http detalle 1) as [calls tasks].
  cbn [snd reply] in *.
  destruct (promise_all tasks) as [items'|e] eqn:Hall;
    [|exfalso; exact (mapUpstreamError_not_validation e _ _ _ Hreply)].
  apply (f_equal body) in Hreply. cbn [body] in Hreply.
  unfold validation_body in Hreply.
  injection Hreply as _ _ Hitems.
  apply map_item_json_injective in Hitems. subst items'.
  apply promise_all_fulfilled in Hall.
  refine (Forall2_compose _ _ _ _ _ _ _ Htasks Hall).
  intros it task item Htask Hitem.
  destruct (get it "id_producto") as [idp|e] eqn:Hit.
  - destruct Htask as [m ->]. cbn [outcome] in Hitem.
    destruct (outcome (http m (GetStock idp JUndefined))) as [stockList|e] eqn:Hstock;
      [|discriminate].
    cbn [bind] in Hitem.
    pose proof (item_of_id engine it stockList item Hitem) as Hid.
    rewrite Hit in Hid. injection Hid as ->.
    split; [reflexivity|]. exists m, stockList. split; assumption.
  - subst task. discriminate.
Qed.

(** X1: a successful validation has one item per ingredient, in the order
    of [detalle]: each item carries the product id of its ingredient and
    was computed by [item_of] from a stock listing that the inventory
    returned for that product. *)
Theorem validateRecipe_items_follow_ingredients
  (engine : Engine) (http : Upstream) (id : string) (receta : JsVal)
  (detalle : list JsVal) (rid : JsVal) (items : list Item) :
  outcome (http 0%nat (GetReceta id)) = Normal receta ->
  get receta "detalle" = Normal (JArr detalle) ->
  reply (validateRecipe engine http id)
  = {| status := 200; body := validation_body rid items |} ->
  Forall2
    (fun it item =>
       get it "id_producto" = Normal (id_producto item) /\
       exists m stockList,
         outcome (http m (GetStock (id_producto item) JUndefined)) = Normal stockList /\
         item_of engine it stockList = Normal item)
    detalle items.
Proof.
  exact (items_of_successful_validation engine http id receta detalle rid items).
Qed.

Lemma validateRecipe_items_follow_ingredients_witness :
  Forall2
    (fun it item =>
       get it "id_producto" = Normal (id_producto item) /\
       exists m stockList,
         outcome (world_two_ingredients m (GetStock (id_producto item) JUndefined))
         = Normal stockList /\
         item_of numeric_engine it stockList = Normal item)
    [ingredient "A" 5; ingredient "B" 3]
    [ {| id_producto := JStr "A"; solicitado := 5; disponible := 12;
         id_sucursal_sugerida := JStr "S2" |};
      {| id_producto := JStr "B"; solicitado := 3; disponible := 1;
         id_sucursal_sugerida := JNull |} ].
Proof.
  apply (validateRecipe_items_follow_ingredients numeric_engine
           world_two_ingredients "R1"
           (JObj [("id_receta", JStr "R1");
                  ("detalle", JArr [ingredient "A" 5; ingredient "B" 3])])
           [ingredient "A" 5; ingredient "B" 3] (JStr "R1"));
    reflexivity.
Defined.

(** X2: the stock calls of a validation are exactly one per ingredient
    that is not [null], in the order of [detalle], each for the
    ingredient's [id_producto] and without [distrito], whatever the
    inventory answers: no call is skipped after a failure. *)
Theorem validateRecipe_issued_calls
  (engine : Engine) (http : Upstream) (id : string) (receta : JsVal)
  (detalle : list JsVal) :
  outcome (http 0%nat (GetReceta id)) = Normal receta ->
  get receta "detalle" = Normal (JArr detalle) ->
  issued (validateRecipe engine http id)
  = GetReceta id ::
    flat_map (fun it =>
                match get it "id_producto" with
                | Normal idp => [GetStock idp JUndefined]
                | Throw _ => []
                end) detalle.
Proof.
  intros Hreceta Hdetalle.
  unfold validateRecipe. rewrite Hreceta, Hdetalle.
  cbn [bind array_or_empty truthy].
  pose proof (launch_calls engine http detalle 1) as Hcalls.
  destruct (launch engine http detalle 1) as [calls tasks].
  cbn [fst issued] in *. rewrite Hcalls. reflexivity.
Qed.

Lemma validateRecipe_issued_calls_witness :
  issued (validateRecipe numeric_engine world_null_ingredient "R1")
  = [GetReceta "R1"; GetStock (JStr "A") JUndefined].
Proof.
  apply (validateRecipe_issued_calls numeric_engine world_null_ingredient "R1"
           (JObj [("id_receta", JStr "R1");
                  ("detalle", JArr [ingredient "A" 5; JNull])])
           [ingredient "A" 5; JNull]);
    reflexivity.
Defined.

Lemma get_throws_TypeError (v : JsVal) (k : string) (e : JsError) :
  get v k = Throw e -> response e = None /\ request e = false.
Proof.
  unfold get. destruct v; try discriminate;
    try (intros H; injection H as <-; split; reflexivity).
  destruct (lookup k props); discriminate.
Qed.

Lemma get_nullish (v : JsVal) (k : string) :
  nullish v = true -> exists e, get v k = Throw e.
Proof.
  destruct v; try discriminate; intros _; cbn [get]; eauto.
Qed.

Lemma mapUpstreamError_local (e : JsError) :
  response e = None -> request e = false ->
  mapUpstreamError e
  = {| status := 500;
       body := JObj [("error", JStr "Orchestrator error");
                     ("detail", JStr (text e))] |}.
Proof.
  intros Hr Hq. unfold mapUpstreamError. rewrite Hr, Hq. reflexivity.
Qed.

(** X3: a [null] (or [undefined]) entry in [detalle] makes the
    validation answer 500 "Orchestrator error", whatever the inventory
    answers for the other ingredients: its rejection comes before any
    reply. *)
Theorem validateRecipe_null_ingredient
  (engine : Engine) (http : Upstream) (id : string) (receta : JsVal)
  (detalle : list JsVal) (it : JsVal) :
  outcome (http 0%nat (GetReceta id)) = Normal receta ->
  get receta "detalle" = Normal (JArr detalle) ->
  In it detalle ->
  nullish it = true ->
  exists detail,
    reply (validateRecipe engine http id)
    = {| status := 500;
         body := JObj [("error", JStr "Orchestrator error");
                       ("detail", JStr detail)] |}.
Proof.
  intros Hreceta Hdetalle Hin Hnull.
  unfold validateRecipe. rewrite Hreceta, Hdetalle.
  cbn [bind array_or_empty truthy].
  pose proof (launch_tasks engine http detalle 1) as Htasks.
  destruct (launch engine http detalle 1) as [calls tasks].
  cbn [snd reply] in *.
  destruct (Forall2_In_l _ _ _ it Htasks Hin) as [task [Htask Hit]].
  destruct (get_nullish it "id_producto" Hnull) as [e0 He0].
  rewrite He0 in Hit.
  assert (Hrej : outcome task = Throw e0) by (subst task; reflexivity).
  assert (Htick : at_tick task = 0%nat) by (subst task; reflexivity).
  destruct (first_rejection_some tasks task e0 Htask Hrej) as [t [e Hfirst]].
  pose proof (first_rejection_earliest tasks t e Hfirst task e0 Htask Hrej) as Hle.
  destruct (first_rejection_member tasks t e Hfirst) as [p [Hp [Hpt Hpe]]].
  destruct (Forall2_In_r _ _ _ p Htasks Hp) as [it' [_ Hit']].
  unfold promise_all. rewrite Hfirst.
  exists (text e). apply mapUpstreamError_local.
  - destruct (get it' "id_producto") as [idp|e'] eqn:Hget.
    + destruct Hit' as [m ->]. cbn [at_tick] in Hpt. lia.
    + subst p. cbn [outcome] in Hpe. injection Hpe as <-.
      exact (proj1 (get_throws_TypeError _ _ _ Hget)).
  - destruct (get it' "id_producto") as [idp|e'] eqn:Hget.
    + destruct Hit' as [m ->]. cbn [at_tick] in Hpt. lia.
    + subst p. cbn [outcome] in Hpe. injection Hpe as <-.
      exact (proj2 (get_throws_TypeError _ _ _ Hget)).
Qed.

Lemma validateRecipe_null_ingredient_witness :
  exists detail,
    reply (validateRecipe numeric_engine world_null_ingredient "R1")
    = {| status := 500;
         body := JObj [("error", JStr "Orchestrator error");
                       ("detail", JStr detail)] |}.
Proof.
  apply (validateRecipe_null_ingredient numeric_engine world_null_ingredient "R1"
           (JObj [("id_receta", JStr "R1");
                  ("detalle", JArr [ingredient "A" 5; JNull])])
           [ingredient "A" 5; JNull] JNull).
  - reflexivity.
  - reflexivity.
  - right. left. reflexivity.
  - reflexivity.
Defined.

(** X4: a recipe payload that is [null], or whose [detalle] is neither
    falsy nor an array, is answered with 500 "Orchestrator error", and
    only the recipe call has been issued. *)
Theorem validateRecipe_malformed_recipe
  (engine : Engine) (http : Upstream) (id : string) (receta : JsVal) :
  outcome (http 0%nat (GetReceta id)) = Normal receta ->
  (nullish receta = true \/
   exists d, get receta "detalle" = Normal d /\ truthy d = true /\
             forall l, d <> JArr l) ->
  exists detail,
    validateRecipe engine http id
    = {| issued := [GetReceta id];
         reply := {| status := 500;
                     body := JObj [("error", JStr "Orchestrator error");
                                   ("detail", JStr detail)] |} |}.
Proof.
  intros Hreceta Hbad. unfold validateRecipe. rewrite Hreceta.
  destruct Hbad as [Hnull | [d [Hd [Htruthy Hnot]]]].
  - destruct (get_nullish receta "detalle" Hnull) as [e He]. rewrite He.
    cbn [bind].
    destruct (get_throws_TypeError _ _ _ He) as [Hr Hq].
    rewrite (mapUpstreamError_local e Hr Hq). eauto.
  - rewrite Hd. cbn [bind]. unfold array_or_empty. rewrite Htruthy.
    destruct d; try (eexists; reflexivity).
    exfalso. exact (Hnot elems eq_refl).
Qed.

Lemma validateRecipe_malformed_recipe_witness :
  exists detail,
    validateRecipe numeric_engine world_detalle_not_array "R1"
    = {| issued := [GetReceta "R1"];
         reply := {| status := 500;
                     body := JObj [("error", JStr "Orchestrator error");
                                   ("detail", JStr detail)] |} |}.
Proof.
  apply (validateRecipe_malformed_recipe numeric_engine world_detalle_not_array
           "R1"
           (JObj [("id_receta", JStr "R1");
                  ("detalle", JObj [("id_producto", JStr "A")])])).
  - reflexivity.
  - right. exists (JObj [("id_producto", JStr "A")]).
    split; [reflexivity|]. split; [reflexivity|]. intros l H. discriminate H.
Defined.

(** X5: when the recipe call fails with an upstream response, the
    validation answers with that status and body, and no stock call is
    issued. *)
Theorem validateRecipe_recipe_failure
  (engine : Engine) (http : Upstream) (id : string) (e : JsError)
  (r : Axios.Response) :
  outcome (http 0%nat (GetReceta id)) = Throw e ->
  response e = Some r ->
  validateRecipe engine http id
  = {| issued := [GetReceta id];
       reply := {| status := Axios.status r;
                   body := JObj [("error", JStr "Upstream error");
                                 ("upstream_status", JNum (Axios.status r));
                                 ("upstream_body", Axios.data r)] |} |}.
Proof.
  intros Hreceta Hr. unfold validateRecipe. rewrite Hreceta.
  rewrite (mapUpstreamError_response e r Hr). reflexivity.
Qed.

Lemma validateRecipe_recipe_failure_witness :
  validateRecipe numeric_engine world_unknown_recipe "R9"
  = {| issued := [GetReceta "R9"];
       reply := {| status := 404;
                   body := JObj [("error", JStr "Upstream error");
                                 ("upstream_status", JNum 404);
                                 ("upstream_body", JStr "receta no encontrada")] |} |}.
Proof.
  apply (validateRecipe_recipe_failure numeric_engine world_unknown_recipe "R9"
           (http_error 404 (JStr "receta no encontrada"))
           {| Axios.status := 404; Axios.data := JStr "receta no encontrada" |});
    reflexivity.
Defined.

(** *** The item of an ingredient, continued *)

Lemma find_result (p : JsVal -> Completion bool) (l : list JsVal) (r : JsVal) :
  find p l = Normal r ->
  (r = JUndefined /\ forall x, In x l -> p x = Normal false) \/
  (exists pre post,
      l = (pre ++ r :: post)%list /\ p r = Normal true /\
      forall x, In x pre -> p x = Normal false).
Proof.
  induction l as [|s l IH]; cbn [find]; intros H.
  - injection H as <-. left. split; [reflexivity | intros x []].
  - bind_inv H as b Hs. destruct b.
    + injection H as <-. right. exists [], l.
      split; [reflexivity|]. split; [exact Hs | intros x []].
    + destruct (IH H) as [[-> Hall] | [pre [post [-> [Hr Hpre]]]]].
      * left. split; [reflexivity|].
        intros x [<- | Hx]; [exact Hs | exact (Hall x Hx)].
      * right. exists (s :: pre), post.
        split; [reflexivity|]. split; [exact Hr|].
        intros x [<- | Hx]; [exact Hs | exact (Hpre x Hx)].
Qed.

(** X6: a suggested branch is never made up: when [id_sucursal_sugerida]
    is not null it is the [id_sucursal] of an entry of the listing whose
    own coerced quantity covers [solicitado], and no entry before it
    does. *)
Theorem sugerida_is_suficiente
  (engine : Engine) (it stockList : JsVal) (item : Item) :
  item_of engine it stockList = Normal item ->
  id_sucursal_sugerida item <> JNull ->
  exists pre s post,
    stock_entries stockList = (pre ++ s :: post)%list /\
    suficiente engine (solicitado item) s /\
    (forall p, In p pre -> ~ suficiente engine (solicitado item) p) /\
    get s "id_sucursal" = Normal (id_sucursal_sugerida item).
Proof.
  intros Hitem Hsome.
  destruct (item_of_parts engine it stockList item Hitem)
    as [_ [Hsug [c [Hc Hn]]]].
  unfold sugerida in Hsug. bind_inv Hsug as l Hl.
  apply array_or_empty_entries in Hl. subst l.
  bind_inv Hsug as found Hfound. injection Hsug as Hsug.
  destruct (find_result _ _ _ Hfound)
    as [[-> _] | [pre [post [Hsplit [Htaken Hpre]]]]].
  - exfalso. apply Hsome. rewrite <- Hsug. reflexivity.
  - exists pre, found, post. split; [exact Hsplit|].
    assert (Hsuf : suficiente engine (solicitado item) found).
    { bind_inv Htaken as q Hq. rewrite Hc in Htaken. cbn [bind] in Htaken.
      rewrite Hn in Htaken. cbn [bind] in Htaken. injection Htaken as Hge.
      exists q. split; assumption. }
    split; [exact Hsuf|]. split.
    + intros p Hp Hsufp.
      pose proof (taken_when_suficiente engine it c _ p Hc Hn Hsufp) as Htrue.
      rewrite (Hpre p Hp) in Htrue. discriminate.
    + destruct Hsuf as [q [Hq _]].
      unfold get_opt, coalesce in Hsug.
      destruct (get found "id_sucursal") as [b|e] eqn:Hb.
      * destruct (nullish b) eqn:Hnb; [exfalso; apply Hsome; now rewrite <- Hsug|].
        rewrite Hsug. reflexivity.
      * exfalso. apply Hsome. rewrite <- Hsug. reflexivity.
Qed.

Lemma sugerida_is_suficiente_witness :
  exists pre s post,
    stock_entries (JArr [stock_entry "S1" 2; stock_entry "S2" 10])
    = (pre ++ s :: post)%list /\
    suficiente numeric_engine 5 s /\
    (forall p, In p pre -> ~ suficiente numeric_engine 5 p) /\
    get s "id_sucursal" = Normal (JStr "S2").
Proof.
  apply (sugerida_is_suficiente numeric_engine (ingredient "A" 5)
           (JArr [stock_entry "S1" 2; stock_entry "S2" 10])
           {| id_producto := JStr "A"; solicitado := 5; disponible := 12;
              id_sucursal_sugerida := JStr "S2" |}).
  - reflexivity.
  - discriminate.
Defined.

(** X7: the three quantity names are tried in a fixed order, and only a
    missing or null value passes the turn: [cantidad_actual] wins over
    [stock_actual], which wins over [cantidad]; a value of 0 is a value. *)
Theorem cantidadField_precedence (s a b c : JsVal) :
  get s "cantidad_actual" = Normal a ->
  get s "stock_actual" = Normal b ->
  get s "cantidad" = Normal c ->
  (nullish a = false -> cantidadField s = Normal a) /\
  (nullish a = true -> nullish b = false -> cantidadField s = Normal b) /\
  (nullish a = true -> nullish b = true -> nullish c = false ->
   cantidadField s = Normal c) /\
  (nullish a = true -> nullish b = true -> nullish c = true ->
   cantidadField s = Normal (JNum 0)).
Proof.
  intros Ha Hb Hc. unfold cantidadField, coalesce. rewrite Ha, Hb, Hc. cbn [bind].
  repeat split; intros; repeat match goal with H : nullish _ = _ |- _ => rewrite H; clear H end;
    reflexivity.
Qed.

Lemma cantidadField_precedence_witness :
  cantidadField (JObj [("cantidad", JNum 9); ("cantidad_actual", JNum 0)])
  = Normal (JNum 0).
Proof.
  apply (proj1 (cantidadField_precedence
                  (JObj [("cantidad", JNum 9); ("cantidad_actual", JNum 0)])
                  (JNum 0) JUndefined (JNum 9) eq_refl eq_refl eq_refl)).
  reflexivity.
Defined.

(** X8: a stock listing that is missing ([null], [undefined] or any
    falsy payload) or empty gives an item with [disponible = 0] and no
    suggested branch. *)
Theorem item_of_no_stock
  (engine : Engine) (it stockList idp c : JsVal) (n : float) :
  truthy stockList = false \/ stockList = JArr [] ->
  get it "id_producto" = Normal idp ->
  get it "cantidad" = Normal c ->
  Number engine c = Normal n ->
  item_of engine it stockList
  = Normal {| id_producto := idp; solicitado := n; disponible := 0;
              id_sucursal_sugerida := JNull |}.
Proof.
  intros Hstock Hidp Hc Hn.
  unfold item_of, total, sugerida, array_or_empty.
  destruct Hstock as [Hfalsy | ->].
  - rewrite Hfalsy. cbn [bind reduce find]. rewrite Hidp, Hc. cbn [bind].
    rewrite Hn. reflexivity.
  - cbn [truthy bind reduce find]. rewrite Hidp, Hc. cbn [bind].
    rewrite Hn. reflexivity.
Qed.

Lemma item_of_no_stock_witness :
  item_of numeric_engine (ingredient "A" 5) JNull
  = Normal {| id_producto := JStr "A"; solicitado := 5; disponible := 0;
              id_sucursal_sugerida := JNull |}.
Proof.
  apply (item_of_no_stock numeric_engine (ingredient "A" 5) JNull
           (JStr "A") (JNum 5) 5).
  - left. reflexivity.
  - reflexivity.
  - reflexivity.
  - reflexivity.
Defined.

(** *** Comparisons with [NaN] and with zero *)

Lemma leb_nan_l (x : float) : PrimFloat.leb nan x = false.
Proof.
  rewrite FloatAxioms.leb_spec. change (Prim2SF nan) with S754_nan. reflexivity.
Qed.

Lemma eqb_zero_inv (d : float) :
  PrimFloat.eqb d 0 = true -> exists sgn, Prim2SF d = S754_zero sgn.
Proof.
  rewrite FloatAxioms.eqb_spec. change (Prim2SF 0) with (S754_zero false).
  destruct (Prim2SF d) as [s | s | | s m e]; try (destruct s); try discriminate; eauto.
Qed.

Lemma gt_zero_of_zero (d : float) : PrimFloat.eqb d 0 = true -> gt d 0 = false.
Proof.
  intros H. destruct (eqb_zero_inv d H) as [sgn Hd].
  unfold gt. rewrite FloatAxioms.ltb_spec, Hd. change (Prim2SF 0) with (S754_zero false).
  reflexivity.
Qed.

Lemma ge_of_zero (d s : float) : PrimFloat.eqb d 0 = true -> ge d s = ge 0 s.
Proof.
  intros H. destruct (eqb_zero_inv d H) as [sgn Hd].
  unfold ge. rewrite !FloatAxioms.leb_spec, Hd. change (Prim2SF 0) with (S754_zero false).
  destruct (Prim2SF s) as [s' | s' | | s' m e]; reflexivity.
Qed.

(** X9: an ingredient without [cantidad] asks for [NaN]: its item is
    never feasible and never gets a suggested branch, so a recipe that
    holds such an ingredient is never VALIDADA. *)
Theorem missing_cantidad_never_validada
  (engine : Engine) (it stockList : JsVal) (item : Item) :
  item_of engine it stockList = Normal item ->
  get it "cantidad" = Normal JUndefined ->
  ~ factible item /\
  id_sucursal_sugerida item = JNull /\
  forall items, In item items -> estado_sugerido items <> "VALIDADA".
Proof.
  intros Hitem Hmissing.
  destruct (item_of_parts engine it stockList item Hitem)
    as [_ [_ [c [Hc Hn]]]].
  rewrite Hmissing in Hc. injection Hc as <-. cbn [Number] in Hn.
  injection Hn as Hn.
  assert (Hnot : ~ factible item).
  { unfold factible, ge. rewrite <- Hn, leb_nan_l. discriminate. }
  split; [exact Hnot|]. split.
  - apply (sugerida_of_none engine it stockList item Hitem).
    intros s _ [q [_ Hge]]. unfold ge in Hge.
    rewrite <- Hn, leb_nan_l in Hge. discriminate.
  - intros items Hin Hval. apply estado_VALIDADA in Hval.
    rewrite Forall_forall in Hval. exact (Hnot (Hval item Hin)).
Qed.

Lemma missing_cantidad_never_validada_witness :
  ~ factible {| id_producto := JStr "A"; solicitado := nan; disponible := 2;
                id_sucursal_sugerida := JNull |} /\
  id_sucursal_sugerida
    {| id_producto := JStr "A"; solicitado := nan; disponible := 2;
       id_sucursal_sugerida := JNull |} = JNull /\
  forall items,
    In {| id_producto := JStr "A"; solicitado := nan; disponible := 2;
          id_sucursal_sugerida := JNull |} items ->
    estado_sugerido items <> "VALIDADA".
Proof.
  apply (missing_cantidad_never_validada numeric_engine
           (JObj [("id_producto", JStr "A")])
           (JArr [stock_entry "S1" 2])); reflexivity.
Defined.

(** X10: when every item has [disponible] equal to zero the status is
    never PARCIAL: it is VALIDADA when every [solicitado] is at most 0
    (in particular for no items at all) and RECHAZADA otherwise. *)
Theorem estado_sin_stock (items : list Item) :
  (forall i, In i items -> PrimFloat.eqb (disponible i) 0 = true) ->
  estado_sugerido items <> "PARCIAL" /\
  (estado_sugerido items = "VALIDADA" <->
   Forall (fun i => ge 0 (solicitado i) = true) items) /\
  (estado_sugerido items = "RECHAZADA" <->
   ~ Forall (fun i => ge 0 (solicitado i) = true) items).
Proof.
  intros Hzero.
  assert (Hok : Forall factible items <->
                Forall (fun i => ge 0 (solicitado i) = true) items).
  { rewrite !Forall_forall. unfold factible.
    split; intros H i Hi; specialize (H i Hi).
    - rewrite <- (ge_of_zero _ _ (Hzero i Hi)). exact H.
    - rewrite (ge_of_zero _ _ (Hzero i Hi)). exact H. }
  assert (Hnone : ~ Exists con_stock items).
  { rewrite Exists_exists. intros [i [Hi Hc]]. unfold con_stock in Hc.
    rewrite (gt_zero_of_zero _ (Hzero i Hi)) in Hc. discriminate. }
  split; [|split].
  - intros H. apply estado_PARCIAL in H. tauto.
  - rewrite estado_VALIDADA. exact Hok.
  - rewrite estado_RECHAZADA. tauto.
Qed.

Lemma estado_sin_stock_witness :
  estado_sugerido
    [ {| id_producto := JStr "A"; solicitado := 5; disponible := 0;
         id_sucursal_sugerida := JNull |} ] <> "PARCIAL".
Proof.
  apply (estado_sin_stock
           [ {| id_producto := JStr "A"; solicitado := 5; disponible := 0;
                id_sucursal_sugerida := JNull |} ]).
  intros i [<- | []]. reflexivity.
Defined.

(** *** Availability, the remaining cases *)

(** X11: when both calls succeed the handler answers 200 with the
    catalog payload as [producto] and the stock payload as [sucursales],
    both as received. *)
Theorem getAvailability_both_succeed
  (engine : Engine) (http : Upstream) (id_producto distrito : JsVal)
  (path_id : string) (producto sucursales : JsVal) :
  truthy id_producto = true ->
  ToString engine id_producto = Normal path_id ->
  outcome (http 0%nat (GetProducto path_id)) = Normal producto ->
  outcome (http 1%nat (GetStock id_producto distrito)) = Normal sucursales ->
  getAvailability engine http id_producto distrito
  = {| issued := [GetProducto path_id; GetStock id_producto distrito];
       reply := {| status := 200;
                   body := JObj [("producto", producto);
                                 ("sucursales", sucursales)] |} |}.
Proof.
  intros Hid Hpath Hcat Hinv.
  unfold getAvailability. rewrite Hid, Hpath. cbn [negb].
  rewrite (catch_404_fulfilled _ producto Hcat).
  unfold promise_all. cbn [first_rejection fulfilled].
  rewrite Hcat, Hinv. reflexivity.
Qed.

Lemma getAvailability_both_succeed_witness :
  getAvailability numeric_engine world_available (JStr "P1") (JStr "Lima")
  = {| issued := [GetProducto "P1"; GetStock (JStr "P1") (JStr "Lima")];
       reply := {| status := 200;
                   body := JObj [("producto", JObj [("id_producto", JStr "P1")]);
                                 ("sucursales", JArr [stock_entry "S1" 2])] |} |}.
Proof.
  apply (getAvailability_both_succeed numeric_engine world_available
           (JStr "P1") (JStr "Lima") "P1"); reflexivity.
Defined.

Lemma catch_404_other (p : Settled JsVal) (e : JsError) :
  outcome p = Throw e ->
  (forall r, response e = Some r -> PrimFloat.eqb (Axios.status r) 404 = false) ->
  catch_404 p = p.
Proof.
  intros Hp He. unfold catch_404. rewrite Hp.
  destruct (response e) as [r|]; [|reflexivity].
  rewrite (He r eq_refl). reflexivity.
Qed.

(** X12: a catalog failure other than a 404 response is not absorbed:
    when the stock call succeeds, or fails later than the catalog call,
    the handler answers with the mapped catalog failure. *)
Theorem getAvailability_catalog_error
  (engine : Engine) (http : Upstream) (id_producto distrito : JsVal)
  (path_id : string) (e : JsError) :
  truthy id_producto = true ->
  ToString engine id_producto = Normal path_id ->
  outcome (http 0%nat (GetProducto path_id)) = Throw e ->
  (forall r, response e = Some r -> PrimFloat.eqb (Axios.status r) 404 = false) ->
  ((exists sucursales,
       outcome (http 1%nat (GetStock id_producto distrito)) = Normal sucursales) \/
   (at_tick (http 0%nat (GetProducto path_id))
    < at_tick (http 1%nat (GetStock id_producto distrito)))%nat) ->
  getAvailability engine http id_producto distrito
  = {| issued := [GetProducto path_id; GetStock id_producto distrito];
       reply := mapUpstreamError e |}.
Proof.
  intros Hid Hpath Hcat Hnot404 Hinv.
  unfold getAvailability. rewrite Hid, Hpath. cbn [negb].
  rewrite (catch_404_other _ e Hcat Hnot404).
  unfold promise_all. cbn [first_rejection]. rewrite Hcat.
  destruct (outcome (http 1%nat (GetStock id_producto distrito))) as [s|e2] eqn:Ho.
  - reflexivity.
  - destruct Hinv as [[s Hs] | Hlt]; [discriminate|].
    assert (Hle : (at_tick (http 0%nat (GetProducto path_id))
                   <=? at_tick (http 1%nat (GetStock id_producto distrito)))%nat = true)
      by (apply Nat.leb_le; lia).
    rewrite Hle. reflexivity.
Qed.

Lemma getAvailability_catalog_error_witness :
  getAvailability numeric_engine world_catalog_down (JStr "P1") JUndefined
  = {| issued := [GetProducto "P1"; GetStock (JStr "P1") JUndefined];
       reply := mapUpstreamError (http_error 500 (JStr "catalog down")) |}.
Proof.
  apply (getAvailability_catalog_error numeric_engine world_catalog_down
           (JStr "P1") JUndefined "P1" (http_error 500 (JStr "catalog down"))).
  - reflexivity.
  - reflexivity.
  - reflexivity.
  - intros r Hr. injection Hr as <-. reflexivity.
  - left. exists (JArr [stock_entry "S1" 2]). reflexivity.
Defined.

(** X13: every reply of either handler is structured: it is a success
    body with status 200, or its body carries a string under [error]. *)
Theorem replies_are_structured
  (engine : Engine) (http : Upstream) (id_producto distrito : JsVal) (id : string) :
  ((exists producto sucursales,
       reply (getAvailability engine http id_producto distrito)
       = {| status := 200;
            body := JObj [("producto", producto); ("sucursales", sucursales)] |}) \/
   (exists msg rest,
       body (reply (getAvailability engine http id_producto distrito))
       = JObj (("error", JStr msg) :: rest))) /\
  ((exists id_receta items,
       reply (validateRecipe engine http id)
       = {| status := 200; body := validation_body id_receta items |}) \/
   (exists msg rest,
       body (reply (validateRecipe engine http id))
       = JObj (("error", JStr msg) :: rest))).
Proof.
  split.
  - unfold getAvailability.
    destruct (truthy id_producto); cbn [negb]; [|right; cbn; eauto].
    destruct (ToString engine id_producto) as [path_id|e];
      [|right; exact (mapUpstreamError_has_error e)].
    cbn [reply].
    destruct (promise_all _) as [l|e];
      [left; eauto | right; exact (mapUpstreamError_has_error e)].
  - destruct (validateRecipe_reply engine http id) as [[e ->] | Hok].
    + right. exact (mapUpstreamError_has_error e).
    + left. exact Hok.
Qed.

(** ** Start-up configuration *)

Lemma must_spec (env : ProcessEnv) (name v : string) :
  must env name = Normal v <-> env name = Some v /\ v <> "".
Proof.
  unfold must. destruct (env name) as [s|].
  - destruct (String.eqb_spec s "") as [-> | Hs].
    + split; [discriminate | intros [H Hv]; injection H as <-; now contradiction Hv].
    + split.
      * intros H. injection H as <-. split; [reflexivity | exact Hs].
      * intros [H _]. injection H as <-. reflexivity.
  - split; [discriminate | intros [H _]; discriminate].
Qed.

Lemma must_throws (env : ProcessEnv) (name : string) (e : JsError) :
  must env name = Throw e ->
  (env name = None \/ env name = Some "") /\
  text e = "Error: [orq] Falta la variable de entorno " ++ name.
Proof.
  unfold must. destruct (env name) as [s|].
  - destruct (String.eqb_spec s "") as [-> | Hs]; [|discriminate].
    intros H. injection H as <-. split; [right; reflexivity | reflexivity].
  - intros H. injection H as <-. split; [left; reflexivity | reflexivity].
Qed.

Lemma or_default_nonempty (v : option string) (d : string) :
  d <> "" -> or_default v d <> "".
Proof.
  intros Hd. unfold or_default. destruct v as [s|]; [|exact Hd].
  destruct (String.eqb_spec s "") as [-> | Hs]; assumption.
Qed.

Lemma service_urls_in_production (env : ProcessEnv) :
  ENV env = "production" ->
  (forall cfg,
      service_urls env = Normal cfg <->
      (env "INVENTARIO_URL" = Some (INVENTARIO_URL cfg) /\ INVENTARIO_URL cfg <> "") /\
      (env "RECETAS_URL" = Some (RECETAS_URL cfg) /\ RECETAS_URL cfg <> "") /\
      (env "CATALOGO_URL" = Some (CATALOGO_URL cfg) /\ CATALOGO_URL cfg <> "")) /\
  (forall e,
      service_urls env = Throw e ->
      exists name,
        In name ["INVENTARIO_URL"; "RECETAS_URL"; "CATALOGO_URL"] /\
        (env name = None \/ env name = Some "") /\
        text e = "Error: [orq] Falta la variable de entorno " ++ name).
Proof.
  intros Hprod. unfold service_urls, service_url. rewrite Hprod.
  cbn [String.eqb Ascii.eqb Bool.eqb andb].
  split.
  - intros [inv rec cat]. cbn [INVENTARIO_URL RECETAS_URL CATALOGO_URL].
    rewrite <- !must_spec.
    destruct (must env "INVENTARIO_URL") as [inv'|e1]; cbn [bind];
      [|split; [discriminate | intros [H _]; discriminate]].
    destruct (must env "RECETAS_URL") as [rec'|e2]; cbn [bind];
      [|split; [discriminate | intros [_ [H _]]; discriminate]].
    destruct (must env "CATALOGO_URL") as [cat'|e3]; cbn [bind];
      [|split; [discriminate | intros [_ [_ H]]; discriminate]].
    split.
    + intros H. injection H as -> -> ->. repeat split.
    + intros [H1 [H2 H3]]. injection H1 as ->. injection H2 as ->.
      injection H3 as ->. reflexivity.
  - intros e.
    destruct (must env "INVENTARIO_URL") as [inv'|e1] eqn:H1; cbn [bind].
    + destruct (must env "RECETAS_URL") as [rec'|e2] eqn:H2; cbn [bind].
      * destruct (must env "CATALOGO_URL") as [cat'|e3] eqn:H3; cbn [bind];
          [discriminate|].
        intros H. injection H as <-. exists "CATALOGO_URL".
        split; [cbn; tauto | exact (must_throws _ _ _ H3)].
      * intros H. injection H as <-. exists "RECETAS_URL".
        split; [cbn; tauto | exact (must_throws _ _ _ H2)].
    + intros H. injection H as <-. exists "INVENTARIO_URL".
      split; [cbn; tauto | exact (must_throws _ _ _ H1)].
Qed.

(** X14: in production the service starts exactly when the three URL
    variables are set and not empty, and then uses their values; when it
    does not start, the error names a variable that is unset or empty. *)
Theorem service_urls_production (env : ProcessEnv) :
  ENV env = "production" ->
  (forall cfg,
      service_urls env = Normal cfg <->
      (env "INVENTARIO_URL" = Some (INVENTARIO_URL cfg) /\ INVENTARIO_URL cfg <> "") /\
      (env "RECETAS_URL" = Some (RECETAS_URL cfg) /\ RECETAS_URL cfg <> "") /\
      (env "CATALOGO_URL" = Some (CATALOGO_URL cfg) /\ CATALOGO_URL cfg <> "")) /\
  (forall e,
      service_urls env = Throw e ->
      exists name,
        In name ["INVENTARIO_URL"; "RECETAS_URL"; "CATALOGO_URL"] /\
        (env name = None \/ env name = Some "") /\
        text e = "Error: [orq] Falta la variable de entorno " ++ name).
Proof.
  exact (service_urls_in_production env).
Qed.

Lemma service_urls_production_witness :
  service_urls env_production
  = Normal {| INVENTARIO_URL := "http://inventario:8082";
              RECETAS_URL := "http://recetas:8083";
              CATALOGO_URL := "http://catalogo:8084" |}.
Proof.
  apply (proj1 (service_urls_production env_production eq_refl)).
  cbn [INVENTARIO_URL RECETAS_URL CATALOGO_URL].
  repeat split; discriminate.
Defined.

Lemma service_urls_outside_production (env : ProcessEnv) :
  ENV env <> "production" ->
  service_urls env
  = Normal {| INVENTARIO_URL := or_default (env "INVENTARIO_URL") "http://localhost:8082";
              RECETAS_URL := or_default (env "RECETAS_URL") "http://localhost:8083";
              CATALOGO_URL := or_default (env "CATALOGO_URL") "http://localhost:8084" |}.
Proof.
  intros Hdev. unfold service_urls, service_url.
  destruct (String.eqb_spec (ENV env) "production") as [Hp | _];
    [now contradiction Hdev | reflexivity].
Qed.

(** X15: outside production the service always starts: each URL is the
    value of its variable when that is set and not empty, and the
    localhost default otherwise. *)
Theorem service_urls_development (env : ProcessEnv) :
  ENV env <> "production" ->
  service_urls env
  = Normal {| INVENTARIO_URL := or_default (env "INVENTARIO_URL") "http://localhost:8082";
              RECETAS_URL := or_default (env "RECETAS_URL") "http://localhost:8083";
              CATALOGO_URL := or_default (env "CATALOGO_URL") "http://localhost:8084" |}.
Proof.
  exact (service_urls_outside_production env).
Qed.

Lemma service_urls_development_witness :
  service_urls env_development
  = Normal {| INVENTARIO_URL := "http://localhost:8082";
              RECETAS_URL := "http://recetas:8083";
              CATALOGO_URL := "http://localhost:8084" |}.
Proof.
  apply (service_urls_development env_development). discriminate.
Defined.

(** X16: whatever the environment, a configuration that loads has no
    empty base URL. *)
Theorem service_urls_nonempty (env : ProcessEnv) (cfg : ServiceUrls) :
  service_urls env = Normal cfg ->
  INVENTARIO_URL cfg <> "" /\ RECETAS_URL cfg <> "" /\ CATALOGO_URL cfg <> "".
Proof.
  intros H.
  destruct (String.eqb_spec (ENV env) "production") as [Hp | Hd].
  - apply (proj1 (service_urls_in_production env Hp)) in H. tauto.
  - rewrite (service_urls_outside_production env Hd) in H. injection H as <-.
    cbn [INVENTARIO_URL RECETAS_URL CATALOGO_URL].
    repeat split; apply or_default_nonempty; discriminate.
Qed.

Lemma service_urls_nonempty_witness :
  "http://localhost:8082" <> "" /\ "http://recetas:8083" <> "" /\
  "http://localhost:8084" <> "".
Proof.
  apply (service_urls_nonempty env_development
           {| INVENTARIO_URL := "http://localhost:8082";
              RECETAS_URL := "http://recetas:8083";
              CATALOGO_URL := "http://localhost:8084" |}).
  reflexivity.
Defined.

(** *** Allowed origins *)

Lemma CORS_ORIGINS_In (trim : string -> string) (env : ProcessEnv) (o : string) :
  In o (CORS_ORIGINS trim env) <->
  o <> "" /\
  exists piece,
    In piece (split ","%char (or_default (env "CORS_ORIGINS") "*")) /\
    trim piece = o.
Proof.
  unfold CORS_ORIGINS. rewrite filter_In, in_map_iff.
  destruct (String.eqb_spec o "") as [-> | Ho]; cbn [negb].
  - split; [intros [_ H]; discriminate | intros [H _]; now contradiction H].
  - split.
    + intros [[piece [Ht Hp]] _]. split; [exact Ho | exists piece; split; assumption].
    + intros [_ [piece [Hp Ht]]]. split; [exists piece; split; assumption | reflexivity].
Qed.

Lemma split_cons (sep : Ascii.ascii) (s : string) :
  exists piece pieces, split sep s = piece :: pieces.
Proof.
  destruct s as [|c rest]; cbn [split]; [eauto|].
  destruct (Ascii.eqb c sep); [eauto|].
  destruct (split sep rest); eauto.
Qed.

(** Joining the pieces with the separator gives the string back. *)
Lemma concat_split (sep : Ascii.ascii) (s : string) :
  String.concat (String sep EmptyString) (split sep s) = s.
Proof.
  induction s as [|c rest IH]; cbn [split]; [reflexivity|].
  destruct (Ascii.eqb_spec c sep) as [-> | Hc].
  - destruct (split_cons sep rest) as [piece [pieces Hsplit]].
    rewrite Hsplit in *. cbn [String.concat String.append] in *.
    rewrite IH. reflexivity.
  - destruct (split_cons sep rest) as [piece [pieces Hsplit]].
    rewrite Hsplit in *. destruct pieces as [|piece' pieces].
    + cbn [String.concat] in *. rewrite IH. reflexivity.
    + cbn [String.concat String.append] in *. rewrite IH. reflexivity.
Qed.

(** No piece holds the separator. *)
Lemma split_pieces (sep : Ascii.ascii) (s : string) :
  Forall (fun piece => occurs sep piece = false) (split sep s).
Proof.
  induction s as [|c rest IH]; cbn [split].
  - repeat constructor.
  - destruct (Ascii.eqb c sep) eqn:Hc.
    + constructor; [reflexivity | exact IH].
    + destruct (split sep rest) as [|piece pieces].
      * repeat constructor. cbn [occurs]. rewrite Hc. reflexivity.
      * inversion IH as [|? ? Hpiece Hpieces]; subst.
        constructor; [|exact Hpieces].
        cbn [occurs]. rewrite Hc, Hpiece. reflexivity.
Qed.

(** X17: the pieces of [CORS_ORIGINS] (or of its default ["*"]) are the
    comma-free strings that, joined by commas, give the variable back.
    Every origin is accepted exactly when some piece trims to ["*"];
    otherwise the [origin] option is the list of the trimmed pieces that
    are not empty, in their order, and ["*"] is not among them. *)
Theorem cors_origin_spec (trim : string -> string) (env : ProcessEnv) :
  String.concat "," (split ","%char (or_default (env "CORS_ORIGINS") "*"))
  = or_default (env "CORS_ORIGINS") "*" /\
  Forall (fun piece => occurs ","%char piece = false)
    (split ","%char (or_default (env "CORS_ORIGINS") "*")) /\
  (cors_origin trim env = AnyOrigin <->
   exists piece,
     In piece (split ","%char (or_default (env "CORS_ORIGINS") "*")) /\
     trim piece = "*") /\
  (forall allowed,
      cors_origin trim env = Origins allowed ->
      allowed
      = filter (fun o => negb (String.eqb o ""))
          (map trim (split ","%char (or_default (env "CORS_ORIGINS") "*"))) /\
      ~ In "*" allowed).
Proof.
  split; [apply concat_split|]. split; [apply split_pieces|].
  unfold cors_origin.
  destruct (existsb (String.eqb "*") (CORS_ORIGINS trim env)) eqn:Hany.
  - split.
    + split; [intros _ | reflexivity].
      apply existsb_exists in Hany. destruct Hany as [o [Ho Heq]].
      apply String.eqb_eq in Heq. subst o.
      apply CORS_ORIGINS_In in Ho. exact (proj2 Ho).
    + intros allowed H. discriminate.
  - assert (Hnot : ~ In "*" (CORS_ORIGINS trim env)).
    { intros Hin. assert (existsb (String.eqb "*") (CORS_ORIGINS trim env) = true).
      { apply existsb_exists. exists "*". split; [exact Hin | reflexivity]. }
      congruence. }
    split.
    + split; [discriminate|]. intros [piece [Hp Ht]]. exfalso. apply Hnot.
      apply CORS_ORIGINS_In. split; [discriminate | exists piece; split; assumption].
    + intros allowed H. injection H as <-.
      split; [reflexivity | exact Hnot].
Qed.

Lemma cors_origin_spec_witness :
  ["http://a"; "http://b"]
  = filter (fun o => negb (String.eqb o ""))
      (map trim_spaces
         (split ","%char (or_default (env_two_origins "CORS_ORIGINS") "*"))) /\
  ~ In "*" ["http://a"; "http://b"].
Proof.
  apply (proj2 (proj2 (proj2 (cors_origin_spec trim_spaces env_two_origins)))
           ["http://a"; "http://b"]).
  reflexivity.
Defined.

(** *** Validation as a whole *)

Lemma get_not_nullish (v : JsVal) (k : string) :
  nullish v = false -> exists x, get v k = Normal x.
Proof.
  destruct v; try discriminate; intros _; cbn [get]; eauto.
  destruct (lookup k props); eauto.
Qed.

(** The task of a readable ingredient is settled by the stock call
    numbered after the calls of the readable ingredients before it. *)
Lemma launch_task_at (engine : Engine) (http : Upstream)
  (pre : list JsVal) (it : JsVal) (post : list JsVal) (n : nat) (idp : JsVal) :
  get it "id_producto" = Normal idp ->
  In {| at_tick :=
          S (at_tick (http (n + length (readable_ingredients pre))%nat
                        (GetStock idp JUndefined)));
        outcome :=
          stockList <- outcome (http (n + length (readable_ingredients pre))%nat
                                  (GetStock idp JUndefined)) ;;
          item_of engine it stockList |}
     (snd (launch engine http (pre ++ it :: post) n)).
Proof.
  intros Hidp. revert n. induction pre as [|x pre IH]; intros n.
  - cbn [app launch readable_ingredients filter length]. rewrite Hidp.
    destruct (launch engine http post (S n)) as [calls tasks].
    cbn [snd]. left. rewrite Nat.add_0_r. reflexivity.
  - cbn [app launch readable_ingredients filter].
    destruct (nullish x) eqn:Hx; cbn [negb].
    + destruct (get_nullish x "id_producto" Hx) as [e ->].
      specialize (IH n).
      destruct (launch engine http (pre ++ it :: post) n) as [calls tasks].
      cbn [snd] in *. right. exact IH.
    + destruct (get_not_nullish x "id_producto" Hx) as [v ->].
      specialize (IH (S n)).
      destruct (launch engine http (pre ++ it :: post) (S n)) as [calls tasks].
      cbn [snd length] in *. right.
      rewrite Nat.add_succ_r. exact IH.
Qed.

(** X18: validation is all or nothing: when the stock call issued for
    some ingredient fails (the call numbered after the recipe call and
    the calls of the readable ingredients before it), the reply is a
    mapped failure and never a validation body, whatever the other
    calls come to. *)
Theorem validateRecipe_all_or_nothing
  (engine : Engine) (http : Upstream) (id : string) (receta : JsVal)
  (pre : list JsVal) (it : JsVal) (post : list JsVal) (idp : JsVal)
  (e : JsError) :
  outcome (http 0%nat (GetReceta id)) = Normal receta ->
  get receta "detalle" = Normal (JArr (pre ++ it :: post)) ->
  get it "id_producto" = Normal idp ->
  outcome (http (1 + length (readable_ingredients pre))%nat
             (GetStock idp JUndefined)) = Throw e ->
  (exists e', reply (validateRecipe engine http id) = mapUpstreamError e') /\
  (forall rid items,
      reply (validateRecipe engine http id)
      <> {| status := 200; body := validation_body rid items |}).
Proof.
  intros Hreceta Hdetalle Hidp Hfails.
  assert (Hmapped : exists e', reply (validateRecipe engine http id)
                               = mapUpstreamError e').
  { unfold validateRecipe. rewrite Hreceta, Hdetalle.
    cbn [bind array_or_empty truthy].
    pose proof (launch_task_at engine http pre it post 1 idp Hidp) as Htask.
    destruct (launch engine http (pre ++ it :: post) 1) as [calls tasks].
    cbn [snd reply] in *.
    destruct (first_rejection_some tasks _ e Htask) as [t [e' Hfirst]].
    - cbn [outcome]. rewrite Hfails. reflexivity.
    - unfold promise_all. rewrite Hfirst. exists e'. reflexivity. }
  split; [exact Hmapped|].
  destruct Hmapped as [e' ->]. intros rid items.
  apply mapUpstreamError_not_validation.
Qed.

Lemma validateRecipe_all_or_nothing_witness :
  (exists e',
      reply (validateRecipe numeric_engine world_second_call_fails "R1")
      = mapUpstreamError e') /\
  (forall rid items,
      reply (validateRecipe numeric_engine world_second_call_fails "R1")
      <> {| status := 200; body := validation_body rid items |}).
Proof.
  apply (validateRecipe_all_or_nothing numeric_engine world_second_call_fails
           "R1"
           (JObj [("id_receta", JStr "R1");
                  ("detalle", JArr [ingredient "A" 5; ingredient "A" 1])])
           [ingredient "A" 5] (ingredient "A" 1) [] (JStr "A")
           (http_error 503 (JStr "inventory down")));
    reflexivity.
Defined.

Lemma Number_primitive (engine : Engine) (v : JsVal) :
  primitive v = true -> exists x, Number engine v = Normal x.
Proof.
  destruct v; try discriminate; intros _; cbn [Number]; eauto.
  destruct b; eauto.
Qed.

Lemma cantidad_of_readable (engine : Engine) (s : JsVal) :
  readable_entry s -> exists q, cantidad_of engine s = Normal q.
Proof.
  intros [Hs Hprim]. unfold cantidad_of, cantidadField, coalesce.
  destruct (get_not_nullish s "cantidad_actual" Hs) as [a Ha].
  destruct (get_not_nullish s "stock_actual" Hs) as [b Hb].
  destruct (get_not_nullish s "cantidad" Hs) as [c Hc].
  rewrite Ha; cbn [bind]. destruct (nullish a) eqn:Na.
  - rewrite Hb; cbn [bind]. destruct (nullish b) eqn:Nb.
    + rewrite Hc; cbn [bind]. destruct (nullish c) eqn:Nc.
      * exists 0%float. reflexivity.
      * apply Number_primitive. apply (Hprim "cantidad" c); [cbn; tauto | exact Hc].
    + cbn [bind]. apply Number_primitive.
      apply (Hprim "stock_actual" b); [cbn; tauto | exact Hb].
  - cbn [bind]. apply Number_primitive.
    apply (Hprim "cantidad_actual" a); [cbn; tauto | exact Ha].
Qed.

Lemma reduce_readable (engine : Engine) (l : list JsVal) (acc : float) :
  Forall readable_entry l ->
  exists t,
    reduce (fun acc s => q <- cantidad_of engine s ;; Normal (acc + q)%float) l acc
    = Normal t.
Proof.
  intros H. revert acc. induction H as [|s l Hs _ IH]; intros acc; cbn [reduce].
  - eauto.
  - destruct (cantidad_of_readable engine s Hs) as [q ->]. cbn [bind]. apply IH.
Qed.

Lemma find_readable (engine : Engine) (it c : JsVal) (n : float) (l : list JsVal) :
  get it "cantidad" = Normal c -> Number engine c = Normal n ->
  Forall readable_entry l ->
  exists r,
    find (fun s =>
            q <- cantidad_of engine s ;;
            c <- get it "cantidad" ;;
            n <- Number engine c ;;
            Normal (ge q n)) l = Normal r.
Proof.
  intros Hc Hn H.
  set (p := fun s => q <- cantidad_of engine s ;;
                     c <- get it "cantidad" ;;
                     n <- Number engine c ;;
                     Normal (ge q n)).
  assert (Hp : forall s, readable_entry s -> exists b, p s = Normal b).
  { intros s Hs. unfold p.
    destruct (cantidad_of_readable engine s Hs) as [q ->]. cbn [bind].
    rewrite Hc. cbn [bind]. rewrite Hn. cbn [bind]. eauto. }
  induction H as [|s l Hs _ IH]; cbn [find].
  - eauto.
  - destruct (Hp s Hs) as [b ->]. cbn [bind].
    destruct b; [eauto | exact IH].
Qed.

(** X19: on a well-formed payload the item of an ingredient is always
    computed: when the ingredient is not [null] and holds a primitive
    [cantidad], and no entry of the listing is [null] or holds an array
    or object as its quantity, [item_of] does not throw. *)
Theorem item_of_total
  (engine : Engine) (it c : JsVal) (l : list JsVal) :
  get it "cantidad" = Normal c ->
  primitive c = true ->
  Forall readable_entry l ->
  exists item, item_of engine it (JArr l) = Normal item.
Proof.
  intros Hc Hprim Hl.
  destruct (Number_primitive engine c Hprim) as [n Hn].
  assert (Hit : nullish it = false).
  { destruct it; try reflexivity; discriminate. }
  destruct (get_not_nullish it "id_producto" Hit) as [idp Hidp].
  destruct (reduce_readable engine l 0%float Hl) as [t Ht].
  destruct (find_readable engine it c n l Hc Hn Hl) as [r Hr].
  unfold item_of, total, sugerida. cbn [array_or_empty truthy bind].
  rewrite Ht. cbn [bind]. rewrite Hr. cbn [bind].
  rewrite Hidp. cbn [bind]. rewrite Hc. cbn [bind]. rewrite Hn. cbn [bind].
  eauto.
Qed.

Lemma item_of_total_witness :
  exists item,
    item_of numeric_engine (ingredient "A" 5)
      (JArr [stock_entry "S1" 2; JNum 7; stock_entry_without_branch 10])
    = Normal item.
Proof.
  apply (item_of_total numeric_engine (ingredient "A" 5) (JNum 5)
           [stock_entry "S1" 2; JNum 7; stock_entry_without_branch 10]).
  - reflexivity.
  - reflexivity.
  - repeat constructor; intros k v [<- | [<- | [<- | []]]] H;
      injection H as <-; reflexivity.
Defined.

Lemma launch_all_fulfilled (engine : Engine) (http : Upstream)
  (detalle : list JsVal) (n : nat) :
  (forall k it,
      nth_error detalle k = Some it ->
      exists idp stockList item,
        get it "id_producto" = Normal idp /\
        outcome (http (n + k)%nat (GetStock idp JUndefined)) = Normal stockList /\
        item_of engine it stockList = Normal item) ->
  first_rejection (snd (launch engine http detalle n)) = None /\
  length (fulfilled (snd (launch engine http detalle n))) = length detalle.
Proof.
  revert n. induction detalle as [|it rest IH]; intros n H; cbn [launch].
  - split; reflexivity.
  - destruct (H 0%nat it eq_refl) as [idp [stockList [item [Hidp [Hstock Hitem]]]]].
    rewrite Nat.add_0_r in Hstock. rewrite Hidp.
    assert (Hrest : forall k it',
               nth_error rest k = Some it' ->
               exists idp stockList item,
                 get it' "id_producto" = Normal idp /\
                 outcome (http (S n + k)%nat (GetStock idp JUndefined))
                 = Normal stockList /\
                 item_of engine it' stockList = Normal item).
    { intros k it' Hk. specialize (H (S k) it' Hk).
      rewrite Nat.add_succ_r in H. exact H. }
    destruct (IH (S n) Hrest) as [Hnone Hlen].
    destruct (launch engine http rest (S n)) as [calls tasks].
    cbn [snd first_rejection fulfilled outcome] in *.
    rewrite Hstock. cbn [bind]. rewrite Hitem. cbn [length].
    split; [exact Hnone | rewrite Hlen; reflexivity].
Qed.

(** X20: validation succeeds whenever it can: if every ingredient can
    be read, the stock call issued for it (the call after the recipe call
    and the calls of the ingredients before it) succeeds and its item is
    computed, the reply is 200 with the recipe's [id_receta] and one item
    per ingredient. *)
Theorem validateRecipe_succeeds
  (engine : Engine) (http : Upstream) (id : string) (receta : JsVal)
  (detalle : list JsVal) :
  outcome (http 0%nat (GetReceta id)) = Normal receta ->
  get receta "detalle" = Normal (JArr detalle) ->
  (forall k it,
      nth_error detalle k = Some it ->
      exists idp stockList item,
        get it "id_producto" = Normal idp /\
        outcome (http (1 + k)%nat (GetStock idp JUndefined)) = Normal stockList /\
        item_of engine it stockList = Normal item) ->
  exists items,
    length items = length detalle /\
    reply (validateRecipe engine http id)
    = {| status := 200;
         body := validation_body (get_opt receta "id_receta") items |}.
Proof.
  intros Hreceta Hdetalle Hall.
  unfold validateRecipe. rewrite Hreceta, Hdetalle.
  cbn [bind array_or_empty truthy].
  destruct (launch_all_fulfilled engine http detalle 1 Hall) as [Hnone Hlen].
  destruct (launch engine http detalle 1) as [calls tasks].
  cbn [snd reply] in *. unfold promise_all. rewrite Hnone.
  exists (fulfilled tasks). split; [exact Hlen | reflexivity].
Qed.

Lemma validateRecipe_succeeds_witness :
  exists items,
    length items = length [ingredient "A" 5; ingredient "B" 3] /\
    reply (validateRecipe numeric_engine world_two_ingredients "R1")
    = {| status := 200;
         body := validation_body
                   (get_opt (JObj [("id_receta", JStr "R1");
                                   ("detalle", JArr [ingredient "A" 5;
                                                     ingredient "B" 3])])
                      "id_receta") items |}.
Proof.
  apply (validateRecipe_succeeds numeric_engine world_two_ingredients "R1"
           (JObj [("id_receta", JStr "R1");
                  ("detalle", JArr [ingredient "A" 5; ingredient "B" 3])])
           [ingredient "A" 5; ingredient "B" 3]).
  - reflexivity.
  - reflexivity.
  - intros [|[|k]] it Hk; cbn in Hk;
      [injection Hk as <- | injection Hk as <- | destruct k; discriminate].
    + exists (JStr "A"), (JArr [stock_entry "S1" 2; stock_entry "S2" 10]),
        {| id_producto := JStr "A"; solicitado := 5; disponible := 12;
           id_sucursal_sugerida := JStr "S2" |}.
      repeat split.
    + exists (JStr "B"), (JArr [stock_entry "S1" 1]),
        {| id_producto := JStr "B"; solicitado := 3; disponible := 1;
           id_sucursal_sugerida := JNull |}.
      repeat split.
Defined.
